(** * Session timing and task sequencing of the dissertation study runner

    A shallow embedding of the client-side study runner
    (src/unnamed/part_000 = tasks.js, src/unnamed/part_002 = the bundled
    app) and of the spreadsheet aggregator (src/unnamed/part_003).

    Conventions:
    - JavaScript numbers that the code keeps integral (milliseconds,
      counters, 32-bit hashes) are [Z]; the ToInt32 / ToUint32 wrap-around
      of the bitwise operators is written out.
    - [Date.now()] is an explicit argument [now] of every operation that
      reads the clock.
    - Strings are Stdlib [string]s (ASCII); [charCodeAt] is the ASCII code. *)

From Stdlib Require Import ZArith Lia String Sorted.
From stdpp Require Import base list gmap strings.
From Stdlib Require Import Ascii.
From Stdlib Require QArith.
From stdpp Require Import pretty.

Open Scope Z_scope.

(* ------------------------------------------------------------------ *)
(** ** JavaScript 32-bit integer operators *)
Module JS.

Definition two32 : Z := 4294967296.
Definition two31 : Z := 2147483648.

(** ToUint32 and ToInt32 of an integral number. *)
Definition toUint32 (z : Z) : Z := z mod two32.
Definition toInt32 (z : Z) : Z :=
  let m := z mod two32 in if m >=? two31 then m - two32 else m.

(** [a | b], [a ^ b], [a << b], [a >>> b], [Math.imul(a, b)]. *)
Definition bor (a b : Z) : Z := toInt32 (Z.lor (toUint32 a) (toUint32 b)).
Definition bxor (a b : Z) : Z := toInt32 (Z.lxor (toUint32 a) (toUint32 b)).
Definition shl (a b : Z) : Z := toInt32 (Z.shiftl (toUint32 a) (b mod 32)).
Definition ushr (a b : Z) : Z := Z.shiftr (toUint32 a) (b mod 32).
Definition imul (a b : Z) : Z := toInt32 (toUint32 a * toUint32 b).

End JS.

(* ------------------------------------------------------------------ *)
(** ** Deterministic sequencer (tasks.js, part_000 lines 51-82) *)
Module Sequencer.
Import JS.

Definition DEMO : string := "DEMO".
Definition DESKTOP_TASKS : list string := ["RC"; "MRT"; "ASLCT"; "VCN"; "SN"; "ID"].
Definition MOBILE_TASKS : list string := ["RC"; "MRT"; "ASLCT"; "SN"; "ID"].

(** The keys of [TASKS]. *)
Definition TASK_CODES : list string :=
  ["RC"; "MRT"; "ASLCT"; "VCN"; "SN"; "ID"; "DEMO"].

(** [hashCode(str)] (part_002 lines 1639-1647):
    [hash = (hash << 5) - hash + c; hash |= 0]. *)
Fixpoint hashCode_from (hash : Z) (s : string) : Z :=
  match s with
  | EmptyString => hash
  | String ch rest =>
      let c := Z.of_nat (nat_of_ascii ch) in
      hashCode_from (bor (shl hash 5 - hash + c) 0) rest
  end.

Definition hashCode (s : string) : Z := hashCode_from 0 s.

(** The closure returned by [mulberry32(a)]: one call of the generator,
    with its captured [a] threaded explicitly.  It returns the 32-bit
    integer [u] of [u / 4294967296] and the new captured [a]. *)
Definition mulberry32_next (a : Z) : Z * Z :=
  let a := bor a 0 in
  let a := bor (a + 1831565813) 0 in
  let t := imul (bxor a (ushr a 15)) (bor 1 a) in
  let t := bxor t (t + imul (bxor t (ushr t 7)) (bor 61 t)) in
  (ushr (bxor t (ushr t 14)) 0, a).

(** [[a[i], a[j]] = [a[j], a[i]]]: the right-hand side is read first,
    then [a[i]] and [a[j]] are assigned in that order. *)
Definition swap {A} (l : list A) (i j : nat) : list A :=
  match l !! j, l !! i with
  | Some x, Some y => <[j := y]> (<[i := x]> l)
  | _, _ => l
  end.

(** [j = Math.floor(rng() * (i + 1))] with [rng() = u / 2^32].  The
    product [u/2^32 * (i+1)] is exact in binary64 for arrays shorter than
    2^21, so the floor is the integer quotient below. *)
Definition pick (u : Z) (i : nat) : nat :=
  Z.to_nat ((u * (Z.of_nat i + 1)) / two32).

(** The loop [for (i = a.length - 1; i > 0; i--)], counting [i] down. *)
Fixpoint shuffle_loop {A} (i : nat) (a : list A) (rng : Z) : list A :=
  match i with
  | O => a
  | S i' =>
      let (u, rng') := mulberry32_next rng in
      shuffle_loop i' (swap a i (pick u i)) rng'
  end.

Definition shuffleWithSeed {A} (array : list A) (seed : Z) : list A :=
  shuffle_loop (length array - 1) array seed.

(** [ensureDemographicsLast(sequence)]. *)
Definition ensureDemographicsLast (sequence : list string) : list string :=
  filter (fun code => code <> DEMO) sequence ++ [DEMO].

(** The sequence built by [createNewSession] (part_002 lines 819-828):
    [seed = Math.abs(hashCode(code))], the device list is shuffled, and
    DEMO is appended. *)
Definition seedOf (code : string) : Z := Z.abs (hashCode code).

Definition deviceTasks (isMobile : bool) : list string :=
  if isMobile then MOBILE_TASKS else DESKTOP_TASKS.

Definition buildSequence (isMobile : bool) (seed : Z) : list string :=
  ensureDemographicsLast (shuffleWithSeed (deviceTasks isMobile) seed).

End Sequencer.

(* ------------------------------------------------------------------ *)
(** ** Timer state machine: [createTimer()] (part_002 lines 461-566) *)
Module Timer.

(** The [reason] strings passed to [pause]. *)
Inductive Reason := Manual | Visibility | Blur | Exit | Inactivity.

Definition reason_eqb (r1 r2 : Reason) : bool :=
  match r1, r2 with
  | Manual, Manual | Visibility, Visibility | Blur, Blur
  | Exit, Exit | Inactivity, Inactivity => true
  | _, _ => false
  end.

(** The timer object; [null] is [None].  [ticking] stands for a live
    [intervalId]. *)
Record Timer := mkTimer {
  startTime : option Z;
  endTime : option Z;
  activeTime : Z;
  lastActivity : Z;
  isPaused : bool;
  pauseReason : option Reason;
  pauseCount : Z;
  inactivityTime : Z;
  pausedTime : Z;
  pauseStart : option Z;
  lastTick : Z;
  ticking : bool
}.

Definition createTimer : Timer :=
  mkTimer None None 0 0 false None 0 0 0 None 0 false.

(** JavaScript truthiness of a timestamp field ([null] and [0] are falsy). *)
Definition truthy (o : option Z) : bool :=
  match o with Some z => negb (z =? 0) | None => false end.

Definition reasonIs (o : option Reason) (r : Reason) : bool :=
  match o with Some r' => reason_eqb r' r | None => false end.

(** [null] read as a number is [0]. *)
Definition num (o : option Z) : Z := match o with Some z => z | None => 0 end.

Definition start (now : Z) (t : Timer) : Timer :=
  mkTimer (Some now) (endTime t) 0 now false (pauseReason t) 0 0 0 None now true.

Definition pause (now : Z) (reason : Reason) (t : Timer) : Timer :=
  if negb (isPaused t) then
    mkTimer (startTime t) (endTime t) (activeTime t) (lastActivity t) true
      (Some reason) (pauseCount t + 1) (inactivityTime t) (pausedTime t)
      (Some now) (lastTick t) (ticking t)
  else t.

Definition resume (now : Z) (t : Timer) : Timer :=
  if isPaused t then
    let paused :=
      if reasonIs (pauseReason t) Manual && truthy (pauseStart t)
      then pausedTime t + (now - num (pauseStart t)) else pausedTime t in
    mkTimer (startTime t) (endTime t) (activeTime t) now false None
      (pauseCount t) (inactivityTime t) paused (pauseStart t) now (ticking t)
  else t.

(** [tick()]; [hidden] is [document.hidden].  The boolean result tells
    whether [onInactivity] was called. *)
Definition tick (now : Z) (hidden : bool) (t : Timer) : Timer * bool :=
  if negb hidden && negb (isPaused t) then
    let timeSinceLastActivity := now - lastActivity t in
    let timeSinceTick := now - lastTick t in
    if timeSinceLastActivity >? 120000 then
      let t := pause now Inactivity t in
      (mkTimer (startTime t) (endTime t) (activeTime t) (lastActivity t)
         (isPaused t) (pauseReason t) (pauseCount t) (inactivityTime t)
         (pausedTime t) (pauseStart t) now (ticking t), true)
    else if timeSinceLastActivity <? 5000 then
      (mkTimer (startTime t) (endTime t) (activeTime t + timeSinceTick)
         (lastActivity t) (isPaused t) (pauseReason t) (pauseCount t)
         (inactivityTime t) (pausedTime t) (pauseStart t) now (ticking t), false)
    else
      (mkTimer (startTime t) (endTime t) (activeTime t) (lastActivity t)
         (isPaused t) (pauseReason t) (pauseCount t)
         (inactivityTime t + timeSinceTick) (pausedTime t) (pauseStart t) now
         (ticking t), false)
  else if isPaused t && reasonIs (pauseReason t) Inactivity then
    (mkTimer (startTime t) (endTime t) (activeTime t) (lastActivity t)
       (isPaused t) (pauseReason t) (pauseCount t)
       (inactivityTime t + (now - lastTick t)) (pausedTime t) (pauseStart t)
       now (ticking t), false)
  else
    (mkTimer (startTime t) (endTime t) (activeTime t) (lastActivity t)
       (isPaused t) (pauseReason t) (pauseCount t) (inactivityTime t)
       (pausedTime t) (pauseStart t) now (ticking t), false).

Definition recordActivity (now : Z) (t : Timer) : Timer :=
  let t := mkTimer (startTime t) (endTime t) (activeTime t) now (isPaused t)
             (pauseReason t) (pauseCount t) (inactivityTime t) (pausedTime t)
             (pauseStart t) (lastTick t) (ticking t) in
  if isPaused t && reasonIs (pauseReason t) Inactivity then resume now t else t.

Definition stop (now : Z) (t : Timer) : Timer :=
  let paused :=
    if isPaused t && truthy (pauseStart t) && reasonIs (pauseReason t) Manual
    then pausedTime t + (now - num (pauseStart t)) else pausedTime t in
  mkTimer (startTime t) (Some now) (activeTime t) (lastActivity t) (isPaused t)
    (pauseReason t) (pauseCount t) (inactivityTime t) paused (pauseStart t)
    (lastTick t) false.

(** The integral fields of [getSummary()] (the ISO strings and the
    floating [activity] percentage are left out). *)
Record Summary := mkSummary {
  elapsed : Z;
  active : Z;
  sPauseCount : Z;
  paused : Z;
  inactive : Z
}.

(** [Math.round(v * (e / total))] computed exactly: [floor(v*e/total + 1/2)]. *)
Definition roundScaled (v e total : Z) : Z := (2 * v * e + total) / (2 * total).

Definition getSummary (now : Z) (t : Timer) : Summary :=
  let endOrNow := if truthy (endTime t) then num (endTime t) else now in
  let elapsed := endOrNow - num (startTime t) in
  let active := Z.min (activeTime t) elapsed in
  let paused := Z.min (pausedTime t) elapsed in
  let inactive := Z.min (inactivityTime t) elapsed in
  let total := active + paused + inactive in
  if total >? elapsed then
    mkSummary elapsed (roundScaled active elapsed total) (pauseCount t)
      (roundScaled paused elapsed total) (roundScaled inactive elapsed total)
  else mkSummary elapsed active (pauseCount t) paused inactive.

(** A call on the timer object, at the time [Date.now()] it reads. *)
Inductive Op :=
  | OpStart
  | OpTick (hidden : bool)
  | OpRecordActivity
  | OpPause (reason : Reason)
  | OpResume
  | OpStop.

Definition step (t : Timer) (call : Z * Op) : Timer :=
  let (now, op) := call in
  match op with
  | OpStart => start now t
  | OpTick hidden => fst (tick now hidden t)
  | OpRecordActivity => recordActivity now t
  | OpPause r => pause now r t
  | OpResume => resume now t
  | OpStop => stop now t
  end.

Definition run (t : Timer) (calls : list (Z * Op)) : Timer := foldl step t calls.

(** What a clock that never goes back keeps true of a timer whose last
    call read the time [T]. *)
Definition clockInv (T : Z) (t : Timer) : Prop :=
  0 <= T /\ 0 <= activeTime t /\ 0 <= inactivityTime t /\ 0 <= pausedTime t /\
  0 <= pauseCount t /\ lastTick t <= T /\ lastActivity t <= T /\ num (pauseStart t) <= T.

End Timer.

(* ------------------------------------------------------------------ *)
(** ** Session codes: [generateCode], [CODE_REGEX] (part_002 lines 11, 790-795) *)
Module Codes.

Definition chars : string := "ABCDEFGHIJKLMNOPQRSTUVWXYZ0123456789".

(** [s.charAt(k)]: the one-character string at [k], or [""] out of range. *)
Definition charAt (s : string) (k : Z) : string :=
  if k <? 0 then EmptyString
  else match String.get (Z.to_nat k) s with
       | Some c => String c EmptyString
       | None => EmptyString
       end.

(** A draw of [Math.random()] is a number [p / q] with [0 <= p < q]; the
    index [Math.floor(r * n)] is computed exactly.  (In binary64 the
    product [r * 36] of an [r < 1] stays below 36 as well.) *)
Definition randomIndex (r : Z * Z) (n : Z) : Z := (fst r * n) / snd r.

Definition validDraw (r : Z * Z) : Prop := 0 <= fst r < snd r.

(** [for (let i = 0; i < 8; i++) code += chars.charAt(...)]; [rnd i] is
    the [i]-th draw. *)
Fixpoint generate_loop (rnd : nat -> Z * Z) (i n : nat) (code : string) : string :=
  match n with
  | O => code
  | S n' =>
      generate_loop rnd (S i) n'
        (code ++ charAt chars (randomIndex (rnd i) (Z.of_nat (String.length chars))))
  end.

Definition generateCode (rnd : nat -> Z * Z) : string := generate_loop rnd 0 8 EmptyString.

(** [/^[A-Z0-9]{8}$/.test(code)]. *)
Definition isCodeChar (c : ascii) : bool :=
  let n := nat_of_ascii c in
  ((65 <=? n)%nat && (n <=? 90)%nat) || ((48 <=? n)%nat && (n <=? 57)%nat).

Definition CODE_REGEX_test (s : string) : bool :=
  (String.length s =? 8)%nat && forallb isCodeChar (list_ascii_of_string s).

(** [String.prototype.trim] (ASCII white space and line terminators) and
    [toUpperCase] on ASCII. *)
Definition isWhiteSpace (c : ascii) : bool :=
  let n := nat_of_ascii c in
  ((9 <=? n)%nat && (n <=? 13)%nat) || (n =? 32)%nat.

Fixpoint dropWhite (l : list ascii) : list ascii :=
  match l with
  | c :: l' => if isWhiteSpace c then dropWhite l' else l
  | [] => []
  end.

Definition trim (s : string) : string :=
  string_of_list_ascii (rev (dropWhite (rev (dropWhite (list_ascii_of_string s))))).

Definition upperChar (c : ascii) : ascii :=
  let n := nat_of_ascii c in
  if (97 <=? n)%nat && (n <=? 122)%nat then ascii_of_nat (n - 32) else c.

Definition toUpperCase (s : string) : string :=
  string_of_list_ascii (map upperChar (list_ascii_of_string s)).

End Codes.

(* ------------------------------------------------------------------ *)
(** ** Session store: [state], [saveState], [createNewSession],
       [resumeSession], [completeTask] (part_002) *)
Module Store.
Import Sequencer Codes.

(** The participant fields of [state]. *)
Record Participant := mkParticipant {
  participantID : string;
  email : string;
  hearingStatus : string;
  fluency : string;
  consentCode : string;
  consentConfirmed : bool
}.

(** The global [state] object (the recording substate, heartbeat and upload
    queue fields are left out).  [lastActivity] is the instant whose ISO
    string the code stores. *)
Record Session := mkSession {
  sessionCode : string;
  participant : Participant;
  sequenceIndex : Z;
  sequence : list string;
  currentTaskIndex : Z;
  completedTasks : list string;
  skippedTasks : list string;
  startTime : option Z;
  totalTimeSpent : Z;
  lastActivity : option Z;
  isMobile : bool;
  currentTaskType : string
}.

Definition set_lastActivity (now : Z) (s : Session) : Session :=
  mkSession (sessionCode s) (participant s) (sequenceIndex s) (sequence s)
    (currentTaskIndex s) (completedTasks s) (skippedTasks s) (startTime s)
    (totalTimeSpent s) (Some now) (isMobile s) (currentTaskType s).

Definition set_sequence (sq : list string) (s : Session) : Session :=
  mkSession (sessionCode s) (participant s) (sequenceIndex s) sq
    (currentTaskIndex s) (completedTasks s) (skippedTasks s) (startTime s)
    (totalTimeSpent s) (lastActivity s) (isMobile s) (currentTaskType s).

Definition set_currentTaskType (ty : string) (s : Session) : Session :=
  mkSession (sessionCode s) (participant s) (sequenceIndex s) (sequence s)
    (currentTaskIndex s) (completedTasks s) (skippedTasks s) (startTime s)
    (totalTimeSpent s) (lastActivity s) (isMobile s) ty.

(** A Firestore document of the [sessions] collection: [{...state,
    lastUpdated}]. *)
Record Doc := mkDoc { docState : Session; lastUpdated : option Z }.

(** The three places a snapshot is written to. *)
Record Backends := mkBackends {
  firestore : gmap string Doc;            (* window.db sessions/<code> *)
  localCache : gmap string Session;       (* localStorage study_<code> *)
  recentSession : option string;          (* localStorage recent_session *)
  sheetLog : list (string * Session)      (* sendToSheets save_state *)
}.

(** What the environment does on one [saveState]: whether [window.db] is
    set, and which of the synchronous calls throw or the Firestore promise
    rejects. *)
Record Faults := mkFaults {
  dbConfigured : bool;
  firestoreSetThrows : bool;
  firestoreSetRejects : bool;
  localSetThrows : bool;
  recentSetThrows : bool
}.

Definition noFaults : Faults := mkFaults true false false false false.

(** The body of a [try] block: writes to the backends that may throw. *)
Definition M (A : Type) : Type := Backends -> option A * Backends.

Definition mret {A} (a : A) : M A := fun b => (Some a, b).
Definition mbind {A B} (m : M A) (k : A -> M B) : M B :=
  fun b => match m b with
           | (Some a, b') => k a b'
           | (None, b') => (None, b')
           end.
Definition mthrow {A} : M A := fun b => (None, b).
Definition modify (g : Backends -> Backends) : M unit := fun b => (Some tt, g b).

(** [try { body } catch (e) { console.warn(...) }]. *)
Definition tryCatch (m : M unit) : Backends -> Backends := fun b => snd (m b).

Notation "m ;;; k" := (mbind m (fun _ => k)) (at level 91, right associativity).

Definition firestoreSet (code : string) (d : Doc) (b : Backends) : Backends :=
  mkBackends (<[code := d]> (firestore b)) (localCache b) (recentSession b) (sheetLog b).
Definition localSet (code : string) (s : Session) (b : Backends) : Backends :=
  mkBackends (firestore b) (<[code := s]> (localCache b)) (recentSession b) (sheetLog b).
Definition recentSet (code : string) (b : Backends) : Backends :=
  mkBackends (firestore b) (localCache b) (Some code) (sheetLog b).
Definition sheetAppend (code : string) (s : Session) (b : Backends) : Backends :=
  mkBackends (firestore b) (localCache b) (recentSession b) (sheetLog b ++ [(code, s)]).

(** The [try] block of [saveState] (part_002 lines 950-981).  A rejected
    Firestore promise is caught by its [.catch] and the write is lost;
    [sendToSheets] is [async], so it never throws into the caller. *)
Definition saveBody (f : Faults) (now : Z) (s : Session) : M unit :=
  (if dbConfigured f then
     if firestoreSetThrows f then mthrow
     else if firestoreSetRejects f then mret tt
     else modify (firestoreSet (sessionCode s) (mkDoc s (Some now)))
   else mret tt) ;;;
  (if localSetThrows f then mthrow else modify (localSet (sessionCode s) s)) ;;;
  (if recentSetThrows f then mthrow else modify (recentSet (sessionCode s))) ;;;
  modify (sheetAppend (sessionCode s) s).

Definition saveState (f : Faults) (now : Z) (s : Session) (b : Backends)
  : Session * Backends :=
  if String.eqb (sessionCode s) EmptyString then (s, b)
  else
    let s := set_lastActivity now s in
    (s, tryCatch (saveBody f now s) b).

(** The form of the start screen, as read from the DOM. *)
Record Form := mkForm {
  firstInitial : string;
  lastInitial : string;
  formEmail : string;
  formHearing : string;
  formFluency : string;
  formConsentCode : string;
  formConsent : bool
}.

Definition nonEmpty (s : string) : bool := negb (String.eqb s EmptyString).

(** [createNewSession()] (part_002 lines 796-848).  [mobile] is
    [isMobileDevice()], [proceed] the answer to the mobile [confirm],
    [idSuffix] is [Date.now().toString().slice(-4)].  [None] is the early
    [return]. *)
Definition createNewSession (prev : Session) (form : Form) (mobile proceed : bool)
    (rnd : nat -> Z * Z) (now : Z) (idSuffix : string) (f : Faults) (b : Backends)
  : option (Session * Backends) :=
  let first := toUpperCase (trim (firstInitial form)) in
  let last := toUpperCase (trim (lastInitial form)) in
  let consentCode := trim (formConsentCode form) in
  if negb (nonEmpty first && nonEmpty last && nonEmpty (formHearing form) &&
           nonEmpty (formFluency form) && nonEmpty consentCode && formConsent form)
  then None
  else if mobile && negb proceed then None
  else
    let code := generateCode rnd in
    let seed := Z.abs (hashCode code) in
    let sequence := shuffleWithSeed (if mobile then MOBILE_TASKS else DESKTOP_TASKS) seed in
    let s := mkSession code
               (mkParticipant (first ++ last ++ "_" ++ idSuffix) (trim (formEmail form))
                  (formHearing form) (formFluency form) consentCode (formConsent form))
               seed (ensureDemographicsLast sequence) (currentTaskIndex prev)
               (completedTasks prev) (skippedTasks prev) (Some now)
               (totalTimeSpent prev) (Some now) mobile (currentTaskType prev) in
    Some (saveState f now s b).

Inductive ResumeResult :=
  | BadCode                                (* the 8-character alert *)
  | NotFound                               (* 'Session not found' *)
  | Resumed (s : Session) (b : Backends).

(** [resumeSession(code)] (part_002 lines 850-906): Firestore first; the
    Sheets fallback runs only [if (CONFIG.SHEETS_URL)], which the
    configuration does not set, so a miss is [NotFound].  The resumed
    state drops [lastUpdated], re-normalises the sequence and is saved. *)
Definition resumeSession (f : Faults) (now : Z) (input : string) (b : Backends)
  : ResumeResult :=
  let code := toUpperCase (trim input) in
  if negb (CODE_REGEX_test code) then BadCode
  else if dbConfigured f then
    match firestore b !! code with
    | Some d =>
        let s := set_sequence (ensureDemographicsLast (sequence (docState d))) (docState d) in
        let (s', b') := saveState f now s b in
        Resumed s' b'
    | None => NotFound
    end
  else NotFound.

(** [state.completedTasks.includes(code)]. *)
Definition includes (l : list string) (code : string) : bool :=
  existsb (fun c => String.eqb c code) l.

(** [while (i < sequence.length && completedTasks.includes(sequence[i])) i++];
    from [i >= 0] the loop runs at most [length sequence] times. *)
Fixpoint advance (fuel : nat) (i : Z) (sq done_ : list string) : Z :=
  match fuel with
  | O => i
  | S fuel' =>
      if (i <? Z.of_nat (length sq)) && (0 <=? i) &&
         match sq !! Z.to_nat i with Some c => includes done_ c | None => false end
      then advance fuel' (i + 1) sq done_
      else i
  end.

(** [completeTask(taskCode)] (part_002 lines 1345-1382) on the session
    state and the shared [taskTimer]; the task-completed event and
    [logSessionTime] go to the event sink and are not modelled. *)
Definition completeTask (f : Faults) (now : Z) (taskCode : string)
    (taskTimer : Timer.Timer) (s : Session) (b : Backends)
  : Timer.Timer * Session * Backends :=
  if negb (includes TASK_CODES taskCode) then (taskTimer, s, b)
  else
    let taskTimer := Timer.stop now taskTimer in
    let summary := Timer.getSummary now taskTimer in
    let completed := if includes (completedTasks s) taskCode then completedTasks s
                     else completedTasks s ++ [taskCode] in
    let skipped := filter (fun code => code <> taskCode) (skippedTasks s) in
    let idx := advance (length (sequence s)) (currentTaskIndex s + 1) (sequence s) completed in
    let s := mkSession (sessionCode s) (participant s) (sequenceIndex s) (sequence s)
               idx completed skipped (startTime s)
               (totalTimeSpent s + Timer.elapsed summary) (lastActivity s)
               (isMobile s) (currentTaskType s) in
    let (s, b) := saveState f now s b in
    (taskTimer, set_currentTaskType EmptyString s, b).

End Store.

(* ------------------------------------------------------------------ *)
(** ** Backend aggregator: [computeSessionWindowMs_], [updateTotalTime]
       (part_003 lines 1971-2100) *)
Module Aggregator.

(** A row of the "Task Progress" sheet.  Timestamps are the results of
    [parseTsMs_] ([null] is [None]); the seconds columns are
    [Number(cell) || 0]. *)
Record ProgressRow := mkProgressRow {
  pTimestamp : option Z;   (* column 0 *)
  pSession : string;       (* column 1 *)
  pStart : option Z;       (* column 6 *)
  pEnd : option Z;         (* column 7 *)
  pActiveSec : Z;          (* column 9, Active Time (sec) *)
  pInactiveSec : Z         (* column 12, Inactive Time (sec) *)
}.

(** A row of the "Session Events" sheet: its parsed timestamp and code. *)
Record EventRow := mkEventRow { eTimestamp : option Z; eSession : string }.

(** The session's row of the "Sessions" sheet. *)
Record SessionRow := mkSessionRow {
  createdDate : option Z;     (* parseTsMs_(Created Date) *)
  lastActivityTs : option Z;  (* parseTsMs_(Last Activity) *)
  pausedMinCell : Z           (* Number(Paused Time (min)) || 0 *)
}.

Record Sheets := mkSheets {
  sessionsRow : string -> option SessionRow;
  progressRows : list ProgressRow;
  eventRows : list EventRow
}.

(** [if (minMs == null || ms < minMs) minMs = ms] and its [max] twin. *)
Definition lowerTo (cur : option Z) (ms : option Z) : option Z :=
  match ms, cur with
  | Some m, None => Some m
  | Some m, Some c => if m <? c then Some m else Some c
  | None, _ => cur
  end.

Definition raiseTo (cur : option Z) (ms : option Z) : option Z :=
  match ms, cur with
  | Some m, None => Some m
  | Some m, Some c => if m >? c then Some m else Some c
  | None, _ => cur
  end.

Definition mergeAll (acc : option Z * option Z) (ts : list (option Z)) : option Z * option Z :=
  foldl (fun '(mn, mx) ms => (lowerTo mn ms, raiseTo mx ms)) acc ts.

Definition computeSessionWindowMs_ (ss : Sheets) (sessionCode : string) (now : Z) : Z * Z :=
  let acc :=
    match sessionsRow ss sessionCode with
    | Some row => (createdDate row, lastActivityTs row)
    | None => (None, None)
    end in
  let acc := foldl (fun acc r =>
               if String.eqb (pSession r) sessionCode
               then mergeAll acc [pTimestamp r; pStart r; pEnd r] else acc)
             acc (progressRows ss) in
  let acc := foldl (fun acc e =>
               if String.eqb (eSession e) sessionCode
               then mergeAll acc [eTimestamp e] else acc)
             acc (eventRows ss) in
  let minMs := match fst acc with Some m => m | None => now end in
  let maxMs := match snd acc with Some m => m | None => minMs end in
  let maxMs := if maxMs <? minMs then minMs else maxMs in
  (minMs, maxMs).

(** [Math.round(x / d)] for an integral [x], i.e. [floor(x/d + 1/2)]. *)
Definition roundDiv (x d : Z) : Z := (2 * x + d) / (2 * d).

(** The seconds [updateTotalTime] derives before writing minutes. *)
Record Totals := mkTotals {
  totalSec : Z;
  activeSec : Z;
  inactiveSec : Z;
  pausedSec : Z;
  idleSec : Z
}.

Definition sumPositive (f : ProgressRow -> Z) (code : string) (rows : list ProgressRow) : Z :=
  foldl (fun acc r => if String.eqb (pSession r) code && (f r >? 0) then acc + f r else acc)
    0 rows.

Definition recomputeTotals (ss : Sheets) (sessionCode : string) (row : SessionRow) (now : Z)
  : Totals :=
  let win := computeSessionWindowMs_ ss sessionCode now in
  let total := Z.max 0 (roundDiv (snd win - fst win) 1000) in
  let active := sumPositive pActiveSec sessionCode (progressRows ss) in
  let inactive := sumPositive pInactiveSec sessionCode (progressRows ss) in
  let paused := pausedMinCell row * 60 in
  mkTotals total active inactive paused (Z.max 0 (total - active - paused - inactive)).

(** The cells written: Total, Active, Idle and Paused Time (min); [None]
    when the session has no row. *)
Definition updateTotalTime (ss : Sheets) (sessionCode : string) (now : Z)
  : option (Z * Z * Z * Z) :=
  match sessionsRow ss sessionCode with
  | None => None
  | Some row =>
      let t := recomputeTotals ss sessionCode row now in
      Some (roundDiv (totalSec t) 60, roundDiv (activeSec t) 60,
            roundDiv (idleSec t) 60, roundDiv (pausedSec t) 60)
  end.

End Aggregator.

(* ------------------------------------------------------------------ *)
(** ** Task flow, study pause and the local resume offer (part_002) *)
Module Flow.
Import Sequencer Store.

(** [skipTask(taskCode)] (part_002 lines 1383-1418) on the session state
    and the shared [taskTimer].  The recording clean-up of "ID" touches the
    recording substate only; the task-skipped event and [logSessionTime]
    go to the event sink and are not modelled. *)
Definition skipTask (f : Faults) (now : Z) (taskCode : string)
    (taskTimer : Timer.Timer) (s : Session) (b : Backends)
  : Timer.Timer * Session * Backends :=
  if negb (includes TASK_CODES taskCode) then (taskTimer, s, b)
  else
    let taskTimer := Timer.stop now taskTimer in
    let completed := if includes (completedTasks s) taskCode then completedTasks s
                     else completedTasks s ++ [taskCode] in
    let skipped := if includes (skippedTasks s) taskCode then skippedTasks s
                   else skippedTasks s ++ [taskCode] in
    let idx := advance (length (sequence s)) (currentTaskIndex s + 1) (sequence s) completed in
    let s := mkSession (sessionCode s) (participant s) (sequenceIndex s) (sequence s)
               idx completed skipped (startTime s) (totalTimeSpent s) (lastActivity s)
               (isMobile s) (currentTaskType s) in
    let (s, b) := saveState f now s b in
    (taskTimer, set_currentTaskType EmptyString s, b).

(** The two ways a task is left: the finish button ([completeTask]) and
    the skip dialog ([skipTask]). *)
Inductive TaskOp := TComplete (x : string) | TSkip (x : string).

Definition taskStep (st : Timer.Timer * Session * Backends) (call : Faults * Z * TaskOp)
  : Timer.Timer * Session * Backends :=
  let '(t, s, b) := st in
  let '(f, now, op) := call in
  match op with
  | TComplete x => completeTask f now x t s b
  | TSkip x => skipTask f now x t s b
  end.


(** The task code of a call. *)
Definition taskOpCode (op : TaskOp) : string :=
  match op with TComplete x | TSkip x => x end.


(** The study-level pause fields of [state]: [pauseStart] ([null] is
    [None]), [totalPausedTime] (its initial [undefined] reads as [0]
    through [|| 0]) and [lastPauseType]. *)
Record StudyPause := mkStudyPause {
  spPauseStart : option Z;
  spTotalPaused : Z;
  spLastPauseType : string
}.

(** [pauseStudy()] (part_002 lines 1442-1453) on the pause fields and the
    two timers ([taskTimer], [sessionTimer]); its [saveState] and event
    leave these fields alone. *)
Definition pauseStudy (now : Z) (sp : StudyPause) (taskT sessT : Timer.Timer)
  : StudyPause * Timer.Timer * Timer.Timer :=
  (mkStudyPause (Some now) (spTotalPaused sp) "manual",
   if Timer.truthy (Timer.startTime taskT) then Timer.pause now Timer.Manual taskT else taskT,
   if Timer.truthy (Timer.startTime sessT) then Timer.pause now Timer.Manual sessT else sessT).

(** [saveAndExit()] (part_002 lines 1469-1480). *)
Definition saveAndExit (now : Z) (sp : StudyPause) (taskT sessT : Timer.Timer)
  : StudyPause * Timer.Timer * Timer.Timer :=
  (mkStudyPause (Some now) (spTotalPaused sp) "exit",
   if Timer.truthy (Timer.startTime taskT) then Timer.pause now Timer.Exit taskT else taskT,
   if Timer.truthy (Timer.startTime sessT) then Timer.pause now Timer.Exit sessT else sessT).

(** [resumeStudy()] (part_002 lines 1454-1468). *)
Definition resumeStudy (now : Z) (sp : StudyPause) (taskT sessT : Timer.Timer)
  : StudyPause * Timer.Timer * Timer.Timer :=
  let sp := if Timer.truthy (spPauseStart sp)
            then mkStudyPause None (spTotalPaused sp + (now - Timer.num (spPauseStart sp)))
                   (spLastPauseType sp)
            else sp in
  (sp,
   if Timer.truthy (Timer.startTime taskT) then Timer.resume now taskT else taskT,
   if Timer.truthy (Timer.startTime sessT) then Timer.resume now sessT else sessT).

(** Thirty days in milliseconds: [daysSince < 30] with
    [daysSince = (now - last) / (1e3*60*60*24)].  The quotient of an
    integral [now - last] below 2^53 by 86400000 is below 30 exactly when
    [now - last < 30 * 86400000] (30 is representable and the gap
    [1/86400000] is far above the rounding error). *)
Definition THIRTY_DAYS_MS : Z := 30 * 86400000.

(** [checkSavedSession()] (part_002 lines 908-931) on a page whose
    [state] is [st]: [localStorage] is the local cache and the
    [recent_session] key of [b]; [accept] is the answer to the [confirm]
    shown 700 ms later, at [now2].  The JSON text written by [saveState]
    parses back to the saved state, and [new Date(data.lastActivity)]
    gives back the saved instant ([undefined] gives [NaN], and
    [NaN < 30] is false).  [None] when nothing is offered or the offer is
    declined; otherwise the adopted state after its [saveState]. *)
Definition checkSavedSession (st : Session) (b : Backends) (now : Z) (accept : bool)
    (f : Faults) (now2 : Z) : option (Session * Backends) :=
  if nonEmpty (sessionCode st) then None
  else match recentSession b with
  | None => None
  | Some recentCode =>
      if negb (nonEmpty recentCode) then None
      else match localCache b !! recentCode with
      | None => None
      | Some data =>
          match lastActivity data with
          | None => None
          | Some last =>
              if (now - last <? THIRTY_DAYS_MS) && accept
              then Some (saveState f now2
                           (set_sequence (ensureDemographicsLast (sequence data)) data) b)
              else None
          end
      end
  end.

End Flow.

(* ------------------------------------------------------------------ *)
(** ** Recovery links: [generateRecoveryLink], [checkRecoveryLink]
       (part_002 lines 932-949, 1515-1519) with the browser functions they
       call: [btoa], [atob], [encodeURIComponent] and [URLSearchParams] *)
Module Recovery.
Import Store.

(** A character of a JavaScript string whose code units are at most 0xFF
    (the strings of this model) and its code. *)
Definition byte (c : ascii) : Z := Z.of_nat (nat_of_ascii c).
Definition chr (z : Z) : ascii := ascii_of_nat (Z.to_nat z).

Definition b64alphabet : string :=
  "ABCDEFGHIJKLMNOPQRSTUVWXYZabcdefghijklmnopqrstuvwxyz0123456789+/".

(** The alphabet character of a sextet [0 <= v < 64]. *)
Definition b64char (v : Z) : ascii :=
  match String.get (Z.to_nat v) b64alphabet with Some c => c | None => "A"%char end.

(** The sextet of an alphabet character. *)
Definition b64value (c : ascii) : option Z :=
  let n := byte c in
  if (65 <=? n) && (n <=? 90) then Some (n - 65)
  else if (97 <=? n) && (n <=? 122) then Some (n - 71)
  else if (48 <=? n) && (n <=? 57) then Some (n + 4)
  else if n =? 43 then Some 62
  else if n =? 47 then Some 63
  else None.

(** RFC 4648 section 4: three bytes give four sextets; a last group of two
    or one byte gives three or two sextets (the missing bits are zero). *)
Fixpoint b64sextets (l : list ascii) : list Z :=
  match l with
  | x :: y :: z :: rest =>
      let n := byte x * 65536 + byte y * 256 + byte z in
      [n / 262144; (n / 4096) mod 64; (n / 64) mod 64; n mod 64] ++ b64sextets rest
  | [x; y] =>
      let n := byte x * 65536 + byte y * 256 in
      [n / 262144; (n / 4096) mod 64; (n / 64) mod 64]
  | [x] => let n := byte x * 65536 in [n / 262144; (n / 4096) mod 64]
  | [] => []
  end.

Definition b64padding (l : list ascii) : list ascii :=
  match (length l mod 3)%nat with
  | 1%nat => ["="%char; "="%char]
  | 2%nat => ["="%char]
  | _ => []
  end.

(** [btoa(s)]: no code unit of these strings is above 0xFF, so it never
    throws. *)
Definition btoa (s : string) : string :=
  let l := list_ascii_of_string s in
  string_of_list_ascii (map b64char (b64sextets l) ++ b64padding l).

(** The forgiving-base64 decode of [atob] (HTML standard): drop ASCII
    white space; if the length is a multiple of 4, drop one or two final
    [=]; fail on a length of the form [4k+1] or on a character outside the
    alphabet; four sextets give three bytes, a last group of three or two
    sextets gives two or one byte (the remaining bits are discarded).
    [None] is the [DOMException] it throws. *)
Definition isAsciiWhitespace (c : ascii) : bool :=
  let n := nat_of_ascii c in
  ((n =? 9) || (n =? 10) || (n =? 12) || (n =? 13) || (n =? 32))%nat.

Definition isEq (c : ascii) : bool := Ascii.eqb c "="%char.

Definition stripPadding (l : list ascii) : list ascii :=
  if (length l mod 4 =? 0)%nat then
    match rev l with
    | c1 :: c2 :: r => if isEq c1 && isEq c2 then rev r
                       else if isEq c1 then rev (c2 :: r) else l
    | [c1] => if isEq c1 then [] else l
    | [] => l
    end
  else l.

Fixpoint b64values (l : list ascii) : option (list Z) :=
  match l with
  | [] => Some []
  | c :: rest =>
      match b64value c, b64values rest with
      | Some v, Some vs => Some (v :: vs)
      | _, _ => None
      end
  end.

Fixpoint b64bytes (v : list Z) : list ascii :=
  match v with
  | a :: b :: c :: d :: rest =>
      let n := a * 262144 + b * 4096 + c * 64 + d in
      [chr (n / 65536); chr ((n / 256) mod 256); chr (n mod 256)] ++ b64bytes rest
  | [a; b; c] =>
      let n := a * 262144 + b * 4096 + c * 64 in
      [chr (n / 65536); chr ((n / 256) mod 256)]
  | [a; b] => let n := a * 262144 + b * 4096 in [chr (n / 65536)]
  | _ => []
  end.

Definition atob (s : string) : option string :=
  let l := filter (fun c => negb (isAsciiWhitespace c)) (list_ascii_of_string s) in
  let l := stripPadding l in
  if (length l mod 4 =? 1)%nat then None
  else match b64values l with
       | Some v => Some (string_of_list_ascii (b64bytes v))
       | None => None
       end.

(** [encodeURIComponent]: the unreserved characters [A-Z a-z 0-9 - _ . ! ~
    * ' ( )] stay; every other code unit is written as the [%XX] escapes
    of its UTF-8 bytes (upper-case hex). *)
Definition isUnreserved (c : ascii) : bool :=
  let n := byte c in
  ((65 <=? n) && (n <=? 90)) || ((97 <=? n) && (n <=? 122)) || ((48 <=? n) && (n <=? 57)) ||
  (n =? 45) || (n =? 95) || (n =? 46) || (n =? 33) || (n =? 126) || (n =? 42) ||
  (n =? 39) || (n =? 40) || (n =? 41).

Definition hexDigit (v : Z) : ascii :=
  match String.get (Z.to_nat v) "0123456789ABCDEF" with Some c => c | None => "0"%char end.

Definition pctByte (n : Z) : list ascii := ["%"%char; hexDigit (n / 16); hexDigit (n mod 16)].

Definition encodeChar (c : ascii) : list ascii :=
  if isUnreserved c then [c]
  else let n := byte c in
       if n <? 128 then pctByte n
       else pctByte (192 + n / 64) ++ pctByte (128 + n mod 64).

Definition encodeURIComponent (s : string) : string :=
  string_of_list_ascii (flat_map encodeChar (list_ascii_of_string s)).

(** The [application/x-www-form-urlencoded] parser behind
    [new URLSearchParams(location.search)].  [location.search] is the
    serialised query, which is ASCII; a leading [?] is dropped, the input
    is split on [&], empty pieces are skipped, a piece is split at its
    first [=], [+] becomes a space, and each side is percent-decoded and
    then UTF-8 decoded.  A decoded side is [TAscii s] when all its bytes
    are ASCII; otherwise it holds a non-ASCII code point (possibly
    U+FFFD), which is all that the uses below look at. *)
Inductive Token := TAscii (s : string) | TNonAscii.

Definition hexValue (c : ascii) : option Z :=
  let n := byte c in
  if (48 <=? n) && (n <=? 57) then Some (n - 48)
  else if (65 <=? n) && (n <=? 70) then Some (n - 55)
  else if (97 <=? n) && (n <=? 102) then Some (n - 87)
  else None.

(** Percent-decoding: [%] followed by two hex digits is that byte; any
    other byte, including a [%] without two hex digits, is kept. *)
Fixpoint percentDecode (l : list ascii) : list Z :=
  match l with
  | [] => []
  | c :: rest =>
      if Ascii.eqb c "%"%char then
        match rest with
        | h :: lo :: rest' =>
            match hexValue h, hexValue lo with
            | Some a, Some b => (a * 16 + b) :: percentDecode rest'
            | _, _ => byte c :: percentDecode rest
            end
        | _ => byte c :: percentDecode rest
        end
      else byte c :: percentDecode rest
  end.

Definition utf8Token (bytes : list Z) : Token :=
  if forallb (fun n => n <? 128) bytes then TAscii (string_of_list_ascii (map chr bytes))
  else TNonAscii.

Definition plusToSpace (c : ascii) : ascii :=
  if Ascii.eqb c "+"%char then " "%char else c.

Definition decodeComponent (l : list ascii) : Token :=
  utf8Token (percentDecode (map plusToSpace l)).

(** Splitting on a separator; [n] separators give [n + 1] pieces. *)
Fixpoint splitOn (sep : ascii) (l : list ascii) : list (list ascii) :=
  match l with
  | [] => [[]]
  | c :: rest =>
      if Ascii.eqb c sep then [] :: splitOn sep rest
      else match splitOn sep rest with
           | piece :: pieces => (c :: piece) :: pieces
           | [] => [[c]]
           end
  end.

Fixpoint splitFirst (sep : ascii) (l : list ascii) : list ascii * list ascii :=
  match l with
  | [] => ([], [])
  | c :: rest =>
      if Ascii.eqb c sep then ([], rest)
      else let (a, b) := splitFirst sep rest in (c :: a, b)
  end.

Definition parseQuery (search : string) : list (Token * Token) :=
  let l := list_ascii_of_string search in
  let l := match l with
           | c :: rest => if Ascii.eqb c "?"%char then rest else l
           | [] => []
           end in
  map (fun piece => let (name, value) := splitFirst "="%char piece in
                    (decodeComponent name, decodeComponent value))
      (filter (fun piece => piece <> []) (splitOn "&"%char l)).

(** [params.get(name)]: the value of the first pair with that name. *)
Fixpoint getParam (q : list (Token * Token)) (name : string) : option Token :=
  match q with
  | [] => None
  | (TAscii n, v) :: rest => if String.eqb n name then Some v else getParam rest name
  | (TNonAscii, _) :: rest => getParam rest name
  end.

(** [generateRecoveryLink()] for the page at [origin] and [pathname]. *)
Definition generateRecoveryLink (origin pathname : string) (s : Session) : string :=
  if nonEmpty (sessionCode s)
  then origin ++ pathname ++ "?recover=" ++ encodeURIComponent (btoa (sessionCode s))
  else "".

(** [checkRecoveryLink()] on the page whose [location.search] is
    [search]: the code it passes to [resumeSession], or [None] when it
    returns early or [atob] throws (the outer [catch]). *)
Definition checkRecoveryLink (search : string) : option string :=
  match getParam (parseQuery search) "recover" with
  | None => None
  | Some TNonAscii => None
  | Some (TAscii token) =>
      if negb (nonEmpty token) then None
      else match atob token with
           | None => None
           | Some code =>
               if nonEmpty code && (String.length code =? 8)%nat then Some code else None
           end
  end.

End Recovery.

(* ------------------------------------------------------------------ *)
(** ** Required tasks and the completed-task counter of the aggregator:
       [normalizeTaskName_], [getRequiredTasksForSession_],
       [updateCompletedTasksCount], [detectDeviceType_] and the row of
       [logTaskSkipped] (part_003 lines 1709-1736, 2102-2205, 2735-2740) *)
Module Progress.

(** A cell value read from a sheet: text, a number (the columns read here
    hold integers), a boolean, or another value such as a [Date], given
    by its [String(v)] text.  An empty cell reads as [""]. *)
Inductive Cell := CStr (s : string) | CNum (n : Z) | CBool (b : bool) | COther (text : string).

(** [String(v)]. *)
Definition cellString (c : Cell) : string :=
  match c with
  | CStr s => s
  | CNum n => pretty n
  | CBool b => if b then "true" else "false"
  | COther t => t
  end.

(** JavaScript truthiness and [a || b]. *)
Definition truthyCell (c : Cell) : bool :=
  match c with
  | CStr s => negb (String.eqb s EmptyString)
  | CNum n => negb (n =? 0)
  | CBool b => b
  | COther _ => true
  end.

Definition orCell (a b : Cell) : Cell := if truthyCell a then a else b.

(** [v === s] for a string [s]. *)
Definition cellIs (c : Cell) (s : string) : bool :=
  match c with CStr s' => String.eqb s' s | _ => false end.

(** [row[k]] of [getDataRange().getValues()]: the range is rectangular,
    so a cell past a short row reads as [""]. *)
Definition cellAt (row : list Cell) (k : nat) : Cell := default (CStr "") (row !! k).

(** [toLowerCase] and [indexOf(needle) !== -1].  The needles below are
    ASCII, and no character up to U+00FF lower-cases to an ASCII letter it
    was not already, so the ASCII lower-casing decides the same matches;
    the [/.../i] tests of [detectDeviceType_] are such matches too. *)
Definition lowerChar (c : ascii) : ascii :=
  let n := nat_of_ascii c in
  if (65 <=? n)%nat && (n <=? 90)%nat then ascii_of_nat (n + 32) else c.

Definition toLowerCase (s : string) : string :=
  string_of_list_ascii (map lowerChar (list_ascii_of_string s)).

Definition contains (hay needle : string) : bool :=
  match String.index 0 needle hay with Some _ => true | None => false end.

Definition RC_NAME : string := "Reading Comprehension Task".
Definition MRT_NAME : string := "Mental Rotation Task".
Definition ASLCT_NAME : string := "ASL Comprehension Test".
Definition VCN_NAME : string := "Virtual Campus Navigation".
Definition SN_NAME : string := "Spatial Navigation".
Definition ID_NAME : string := "Image Description".
Definition DEMO_NAME : string := "Demographics Survey".

(** [normalizeTaskName_(name)]: [map[name] || name].  (Names of
    [Object.prototype] members are looked up in the prototype; they are
    no task names and are counted by no caller either way.) *)
Definition normalizeTaskName_ (name : string) : string :=
  if String.eqb name "Reading Comprehension (RC)" then RC_NAME
  else if String.eqb name "RC" then RC_NAME
  else if String.eqb name "MRT" then MRT_NAME
  else if String.eqb name "Virtual Campus" then VCN_NAME
  else if String.eqb name "Spatial Nav" then SN_NAME
  else if String.eqb name "Image Desc" then ID_NAME
  else name.

(** [map[headers[i]] = i] over the header row: the last column with the
    name wins. *)
Definition headerIndex (headers : list string) (h : string) : option nat :=
  foldl (fun acc '(i, x) => if String.eqb x h then Some i else acc) None
    (zip (seq 0 (length headers)) headers).

(** The device type read by [getRequiredTasksForSession_]: the first
    Sessions row whose code cell is [=== sessionCode], its ["Device Type"]
    cell [|| 'Desktop'].  [sessions] is [getDataRange().getValues()] of the
    Sessions sheet, the header row first. *)
Definition sessionDeviceType (sessions : list (list Cell)) (sessionCode : string) : Cell :=
  match sessions with
  | [] => CStr "Desktop"
  | header :: rows =>
      let headers := map (fun v => cellString (orCell v (CStr ""))) header in
      match List.find (fun row => cellIs (cellAt row 0) sessionCode) rows with
      | Some row =>
          match headerIndex headers "Device Type" with
          | Some i => orCell (cellAt row i) (CStr "Desktop")
          | None => CStr "Desktop"
          end
      | None => CStr "Desktop"
      end
  end.

(** The [aslctOptional] loop over the Task Progress rows (header row
    first): a Skipped row of the session for the ASLCT whose Details
    (column 14) contains "does not know asl". *)
Definition aslctOptional (progress : list (list Cell)) (sessionCode : string) : bool :=
  existsb (fun row =>
             cellIs (cellAt row 1) sessionCode && cellIs (cellAt row 4) ASLCT_NAME &&
             cellIs (cellAt row 5) "Skipped" &&
             contains (toLowerCase (cellString (orCell (cellAt row 14) (CStr "")))) "does not know asl")
    (tail progress).

(** The required list before the ASLCT filter; [splice(3, 0, VCN)] on a
    desktop. *)
Definition baseRequired (isMobile : bool) : list string :=
  if isMobile then [RC_NAME; MRT_NAME; ASLCT_NAME; SN_NAME; DEMO_NAME]
  else [RC_NAME; MRT_NAME; ASLCT_NAME; VCN_NAME; SN_NAME; DEMO_NAME].

Definition getRequiredTasksForSession_ (sessions progress : list (list Cell))
    (sessionCode : string) : list string :=
  let deviceType := sessionDeviceType sessions sessionCode in
  let isMobile := contains (toLowerCase (cellString deviceType)) "mobile" in
  let required := baseRequired isMobile in
  let required := if aslctOptional progress sessionCode
                  then filter (fun t => t <> ASLCT_NAME) required else required in
  map normalizeTaskName_ required.

(** The [completedSet] loop: the normalised names of the session's
    Completed or Skipped rows that are required. *)
Definition completedSet (progress : list (list Cell)) (sessionCode : string)
    (requiredSet : gset string) : gset string :=
  foldl (fun acc row =>
           if cellIs (cellAt row 1) sessionCode then
             let taskName := normalizeTaskName_ (cellString (cellAt row 4)) in
             if (cellIs (cellAt row 5) "Completed" || cellIs (cellAt row 5) "Skipped") &&
                bool_decide (taskName ∈ requiredSet)
             then {[taskName]} ∪ acc else acc
           else acc)
    ∅ (tail progress).

(** [completedCount] and [requiredTotal] ([Object.keys(..).length]). *)
Definition taskCounts (sessions progress : list (list Cell)) (sessionCode : string) : nat * nat :=
  let required := getRequiredTasksForSession_ sessions progress sessionCode in
  let requiredSet : gset string := list_to_set (map normalizeTaskName_ required) in
  (size (completedSet progress sessionCode requiredSet), size requiredSet).

(** [updateCompletedTasksCount(ss, sessionCode)]: the "Tasks Completed"
    and "Status" cells it writes; [rowFound] is
    [findRowBySessionCode_(Sessions, sessionCode) != 0], and [None] is the
    early return. *)
Definition updateCompletedTasksCount (sessions progress : list (list Cell))
    (sessionCode : string) (rowFound : bool) : option (string * string) :=
  let '(completedCount, requiredTotal) := taskCounts sessions progress sessionCode in
  if rowFound then
    Some ((pretty (Z.of_nat completedCount) ++ "/" ++ pretty (Z.of_nat requiredTotal))%string,
          if (completedCount =? requiredTotal)%nat then "Complete" else "Active")
  else None.

(** [detectDeviceType_(data)]: the label and [isMobile]. *)
Definition detectDeviceType_ (deviceType userAgent : Cell) : string * bool :=
  let raw := toLowerCase (cellString (orCell deviceType (CStr ""))) in
  let ua := toLowerCase (cellString (orCell userAgent (CStr ""))) in
  let mobile := contains raw "mobile" || contains raw "tablet" ||
                contains ua "android" || contains ua "iphone" || contains ua "ipad" ||
                contains ua "mobile" in
  (if mobile then "Mobile/Tablet" else "Desktop", mobile).

(** The fields of a [task_skipped] request that [logTaskSkipped] reads; a
    missing field is [""]. *)
Record SkipData := mkSkipData {
  sdTimestamp : Cell;
  sdSessionCode : Cell;
  sdParticipantID : Cell;
  sdDeviceType : Cell;
  sdUserAgent : Cell;
  sdTask : Cell;
  sdReason : Cell
}.

(** The row [logTaskSkipped] appends to Task Progress (15 cells). *)
Definition logTaskSkipped_row (d : SkipData) : list Cell :=
  [sdTimestamp d; sdSessionCode d; orCell (sdParticipantID d) (CStr "");
   CStr (fst (detectDeviceType_ (sdDeviceType d) (sdUserAgent d)));
   sdTask d; CStr "Skipped"; CStr ""; CStr "";
   CNum 0; CNum 0; CNum 0; CNum 0; CNum 0;
   orCell (sdReason d) (CStr "User choice");
   CBool true].

End Progress.

(* ------------------------------------------------------------------ *)
(** ** [sanitizeInput_] (part_003 lines 451-467) *)
Module Sanitize.

(** A value of [JSON.parse]: objects are their own properties in for-in
    order; numbers are finite doubles, i.e. rationals. *)
#[local] Set Warnings "-register-all".
Inductive JVal :=
  | JStr (s : string)
  | JNum (q : QArith_base.Q)
  | JBool (b : bool)
  | JNull
  | JArr (items : list JVal)
  | JObj (fields : list (string * JVal)).

(** A value of the sanitised object. *)
Inductive SVal := SStr (s : string) | SNum (q : QArith_base.Q) | SBool (b : bool).

Section WithStringify.

(** [JSON.stringify], applied to nested values. *)
Variable stringify : JVal -> string.

(** [v.slice(0, 1000)] for a string, the value itself for a number or a
    boolean, [JSON.stringify(v)] otherwise ([null], arrays, objects). *)
Definition sanitizeValue (v : JVal) : SVal :=
  match v with
  | JStr s => SStr (substring 0 1000 s)
  | JNum q => SNum q
  | JBool b => SBool b
  | _ => SStr (stringify v)
  end.

(** The keys [for (var k in obj)] visits: array indices or own
    properties. *)
Definition forInEntries (v : JVal) : list (string * JVal) :=
  match v with
  | JArr items => zip (map (fun i => pretty (Z.of_nat i)) (seq 0 (length items))) items
  | JObj fields => fields
  | _ => []
  end.

(** [sanitizeInput_(obj)]: [None] is [{ error: 'Invalid data' }].  The
    assignment [out["__proto__"] = v] of a string, number or boolean goes
    to the [__proto__] setter, which ignores it. *)
Definition sanitizeInput_ (v : JVal) : option (gmap string SVal) :=
  match v with
  | JArr _ | JObj _ =>
      Some (foldl (fun out '(k, x) =>
                     if String.eqb k "__proto__" then out
                     else <[k := sanitizeValue x]> out)
              ∅ (forInEntries v))
  | _ => None
  end.

End WithStringify.

End Sanitize.

(* ------------------------------------------------------------------ *)
(** ** Concrete inputs used by the statements below *)
Module Samples.
Import Timer Codes Store.

(** A session clock reading (Nov 2023) used by the concrete runs. *)
Definition T0 : Z := 1700000000000.

(** Manual pause during a task, [stop()] (as [completeTask] does), then
    the pause button's [resume()] on the stopped timer. *)
Definition overshoot_calls : list (Z * Op) :=
  [(T0, OpStart); (T0 + 1000, OpTick false); (T0 + 2048, OpTick false);
   (T0 + 2048, OpPause Manual); (T0 + 2549, OpStop); (T0 + 3595, OpResume)].

(** Ticks once per second at seconds [from+1 .. from+n]. *)
Definition ticks (from n : nat) : list (Z * Op) :=
  map (fun k => (T0 + 1000 * Z.of_nat k, OpTick false)) (seq (S from) n).

(** Start at 0 s, activity at 10 s, then ticks up to second [last]. *)
Definition idle_run (last : nat) : Timer :=
  run createTimer
    ([(T0, OpStart)] ++ ticks 0 10 ++ [(T0 + 10000, OpRecordActivity)] ++
     ticks 10 (last - 10)).

Definition goodChar (c : ascii) : Prop :=
  isCodeChar c = true /\ isWhiteSpace c = false /\ upperChar c = c.

(** Valid [Math.random()] draws. *)
Definition rndExample : nat -> Z * Z := fun i => (Z.of_nat ((i * 7 + 3) mod 40), 40).

Definition emptyBackends : Backends := mkBackends ∅ ∅ None [].

(** The initial [state] object of part_002 (lines 425-435). *)
Definition initialState : Session :=
  mkSession "" (mkParticipant "" "" "" "" "" false) (-1) [] 0 [] [] None 0 None false "".

Definition sampleForm : Form := mkForm " a" "b " "ab@example.org" "Deaf" "Fluent" " C1 " true.

(** The session [createNewSession] builds from [sampleForm] on a desktop. *)
Definition sampleSession : Session :=
  match createNewSession initialState sampleForm false false rndExample T0 "0000"
          noFaults emptyBackends with
  | Some (s, _) => s
  | None => initialState
  end.

Definition sampleTaskTimer : Timer := start (T0 + 1000) createTimer.

(** [localStorage.setItem] throws (a full quota) while Firestore is fine. *)
Definition localQuotaFault : Faults := mkFaults true false false true false.

(** [set()] throws synchronously (e.g. a field Firestore refuses). *)
Definition firestoreThrowFault : Faults := mkFaults true true false false false.

(** A 10-minute session with one task: 100 s active, 200 s inactive. *)
Definition sampleSheets : Aggregator.Sheets :=
  Aggregator.mkSheets
    (fun code => if String.eqb code "CJPV18EK"
                 then Some (Aggregator.mkSessionRow (Some T0) (Some (T0 + 600000)) 0)
                 else None)
    [Aggregator.mkProgressRow (Some (T0 + 400000)) "CJPV18EK" (Some (T0 + 100000))
       (Some (T0 + 400000)) 100 200]
    [Aggregator.mkEventRow (Some (T0 + 5000)) "CJPV18EK"].


(** A task with a hidden tab from 2 s to 60 s and a blur from 61 s to
    90 s, and no manual pause. *)
Definition away_calls : list (Z * Op) :=
  [(T0, OpStart); (T0 + 1000, OpTick false); (T0 + 2000, OpPause Visibility);
   (T0 + 3000, OpTick true); (T0 + 60000, OpResume); (T0 + 61000, OpPause Blur);
   (T0 + 62000, OpTick false); (T0 + 90000, OpResume); (T0 + 91000, OpStop)].

(** The skip the client sends for the ASLCT, and the Task Progress sheet
    after [logTaskSkipped] logged it. *)
Definition sampleSkip : Progress.SkipData :=
  Progress.mkSkipData (Progress.CNum 1700000000000) (Progress.CStr "CJPV18EK") (Progress.CStr "P01") (Progress.CStr "desktop")
    (Progress.CStr "Mozilla/5.0") (Progress.CStr Progress.ASLCT_NAME) (Progress.CStr "Does not know ASL").

Definition sampleProgress : list (list Progress.Cell) :=
  [map Progress.CStr ["Timestamp"; "Session Code"; "Participant ID"; "Device Type"; "Task Name";
             "Event Type"; "Start Time"; "End Time"; "Elapsed Time (sec)"; "Active Time (sec)";
             "Pause Count"; "Paused Time (sec)"; "Inactive Time (sec)"; "Activity Score (%)";
             "Details"; "Completed"];
   Progress.logTaskSkipped_row sampleSkip].

(** A posted body with a [__proto__] key and a long string. *)
Definition sampleBody : list (string * Sanitize.JVal) :=
  [("sessionCode", Sanitize.JStr "CJPV18EK"); ("__proto__", Sanitize.JStr "polluted");
   ("note", Sanitize.JStr (String.concat "" (repeat "0123456789" 150)));
   ("score", Sanitize.JNum (QArith_base.inject_Z 7)); ("extra", Sanitize.JArr [Sanitize.JBool true])].

(** [JSON.stringify] of the nested values of [sampleBody]. *)
Definition sampleStringify (v : Sanitize.JVal) : string :=
  match v with Sanitize.JArr [Sanitize.JBool true] => "[true]" | _ => "null" end.
End Samples.

(* ================================================================== *)
(** * Proofs *)

Module SequencerFacts.
Import Sequencer.

Lemma swap_perm {A} (l : list A) i j : swap l i j ≡ₚ l.
Proof.
  unfold swap.
  destruct (l !! j) as [x|] eqn:Hj, (l !! i) as [y|] eqn:Hi; try done.
  by apply Permutation_insert_swap.
Qed.

Lemma shuffle_loop_perm {A} i (a : list A) rng : shuffle_loop i a rng ≡ₚ a.
Proof.
  revert a rng; induction i as [|i IH]; intros a rng; simpl; [done|].
  destruct (mulberry32_next rng) as [u rng'].
  by rewrite IH, swap_perm.
Qed.

Lemma shuffleWithSeed_perm {A} (l : list A) seed : shuffleWithSeed l seed ≡ₚ l.
Proof. apply shuffle_loop_perm. Qed.

Lemma ensureDemographicsLast_last l : last (ensureDemographicsLast l) = Some DEMO.
Proof. apply last_snoc. Qed.

Lemma ensureDemographicsLast_removelast l :
  removelast (ensureDemographicsLast l) = filter (fun code => code <> DEMO) l.
Proof. apply removelast_last. Qed.

Lemma filter_False_nil {A} (l : list A) : filter (fun _ => False) l = [].
Proof. induction l as [|x l IH]; [done|]. rewrite filter_cons, decide_False; auto. Qed.

Lemma ensureDemographicsLast_demo_once l :
  length (filter (fun code => code = DEMO) (ensureDemographicsLast l)) = 1%nat.
Proof.
  unfold ensureDemographicsLast. rewrite filter_app, list_filter_filter.
  rewrite (list_filter_iff _ (fun _ => False)) by (intros; tauto).
  rewrite filter_False_nil, filter_cons_True, filter_nil by done. done.
Qed.

Lemma ensureDemographicsLast_NoDup l : NoDup l -> NoDup (ensureDemographicsLast l).
Proof.
  intros Hl. unfold ensureDemographicsLast. apply NoDup_app. split_and!.
  - by apply NoDup_filter.
  - intros x Hx Hx'. apply list_elem_of_filter in Hx as [Hne _].
    apply list_elem_of_singleton in Hx'. done.
  - apply NoDup_singleton.
Qed.

Lemma ensureDemographicsLast_idem l :
  ensureDemographicsLast (ensureDemographicsLast l) = ensureDemographicsLast l.
Proof.
  unfold ensureDemographicsLast. rewrite filter_app, list_filter_filter.
  rewrite (list_filter_iff _ (fun code => code <> DEMO)) by (intros; tauto).
  rewrite filter_cons_False, filter_nil by (intros H; by apply H). by rewrite app_nil_r.
Qed.

End SequencerFacts.

Module TimerFacts.
Import Timer Samples.


(** Invariance of the two fields that [elapsed] reads under the calls other
    than [start] and [stop]. *)
Lemma step_keeps_window t now op :
  op <> OpStart -> op <> OpStop ->
  startTime (step t (now, op)) = startTime t /\
  endTime (step t (now, op)) = endTime t.
Proof.
  intros Hs Hp. destruct op as [|h| |r| |]; try congruence; simpl;
    unfold tick, recordActivity, pause, resume;
    repeat (simpl; match goal with
                   | |- context [if ?b then _ else _] => destruct b
                   end); simpl; auto.
Qed.

Lemma run_keeps_window t calls :
  Forall (fun c => snd c <> OpStart /\ snd c <> OpStop) calls ->
  startTime (run t calls) = startTime t /\ endTime (run t calls) = endTime t.
Proof.
  unfold run. revert t. induction calls as [|[now op] calls IH]; intros t Hall; cbn [foldl]; [done|].
  inversion Hall as [|? ? [Hs Hp] Hrest]; subst.
  destruct (step_keeps_window t now op Hs Hp) as [H1 H2].
  destruct (IH (step t (now, op)) Hrest) as [H3 H4]. split; congruence.
Qed.

Lemma getSummary_elapsed_window now t t' :
  startTime t' = startTime t -> endTime t' = endTime t ->
  elapsed (getSummary now t') = elapsed (getSummary now t).
Proof.
  intros H1 H2. unfold getSummary. rewrite H1, H2.
  destruct (_ >? _); destruct (_ >? _); reflexivity.
Qed.

(** C1 (code bug): on a stopped timer whose manual pause is later resumed,
    the raw buckets overshoot [elapsed]; the proportional scaling then rounds
    both halves up with [Math.round] and the returned
    [active + paused + inactive] exceeds [elapsed] by one. *)
Theorem getSummary_scaled_overshoot :
  let s := getSummary (T0 + 4000) (run createTimer overshoot_calls) in
  elapsed s = 2549 /\ active s = 1275 /\ paused s = 1275 /\ inactive s = 0 /\
  active s + paused s + inactive s > elapsed s.
Proof. vm_compute. repeat split; reflexivity. Qed.

(** C2 (counterexample): a running, visible tick 10 s after the last
    activity adds the interval to [inactivityTime]; and a 125-second tick
    run whose last activity is at second 10 never pauses and has accrued
    117 s of inactivity (seconds 5-10 and 15-125). *)
Lemma tick_middle_band_counterexample :
  (let t := fst (tick (T0 + 10000) false (start T0 createTimer)) in
   activeTime t = 0 /\ inactivityTime t = 10000) /\
  isPaused (idle_run 125) = false /\ inactivityTime (idle_run 125) = 117000.
Proof. vm_compute. repeat split; reflexivity. Qed.

(** C2 (amended): a tick of a running timer in a visible tab compares the
    time since the last activity [d] with the two thresholds: [d > 120000]
    pauses with reason inactivity and calls [onInactivity] without accruing;
    [d < 5000] adds the time since the last tick to [activeTime]; otherwise
    ([5000 <= d <= 120000]) the time since the last tick is added to
    [inactivityTime].  [lastTick] becomes [now] in every case. *)
Theorem tick_running_cases (now : Z) (t : Timer) :
  isPaused t = false ->
  let (t', fired) := tick now false t in
  let d := now - lastActivity t in
  lastTick t' = now /\
  (d > 120000 -> isPaused t' = true /\ pauseReason t' = Some Inactivity /\
     fired = true /\ activeTime t' = activeTime t /\
     inactivityTime t' = inactivityTime t) /\
  (d < 5000 -> fired = false /\ isPaused t' = false /\
     activeTime t' = activeTime t + (now - lastTick t) /\
     inactivityTime t' = inactivityTime t) /\
  (5000 <= d <= 120000 -> fired = false /\ isPaused t' = false /\
     activeTime t' = activeTime t /\
     inactivityTime t' = inactivityTime t + (now - lastTick t)).
Proof.
  intros Hp. unfold tick, pause. rewrite Hp. simpl.
  destruct (now - lastActivity t >? 120000) eqn:Hhi;
    [|destruct (now - lastActivity t <? 5000) eqn:Hlo];
    simpl; rewrite ?Z.gtb_lt, ?Z.gtb_ltb, ?Z.ltb_lt, ?Z.ltb_ge in *;
    repeat split; intros; try lia; rewrite ?Hp; try reflexivity.
Qed.

Lemma tick_running_cases_witness :
  isPaused (start T0 createTimer) = false /\
  (let (t', fired) := tick (T0 + 10000) false (start T0 createTimer) in
   let d := (T0 + 10000) - lastActivity (start T0 createTimer) in
   lastTick t' = T0 + 10000 /\
   (d > 120000 -> isPaused t' = true /\ pauseReason t' = Some Inactivity /\
      fired = true /\ activeTime t' = activeTime (start T0 createTimer) /\
      inactivityTime t' = inactivityTime (start T0 createTimer)) /\
   (d < 5000 -> fired = false /\ isPaused t' = false /\
      activeTime t' = activeTime (start T0 createTimer) +
                      ((T0 + 10000) - lastTick (start T0 createTimer)) /\
      inactivityTime t' = inactivityTime (start T0 createTimer)) /\
   (5000 <= d <= 120000 -> fired = false /\ isPaused t' = false /\
      activeTime t' = activeTime (start T0 createTimer) /\
      inactivityTime t' = inactivityTime (start T0 createTimer) +
                          ((T0 + 10000) - lastTick (start T0 createTimer)))).
Proof.
  split; [reflexivity|].
  apply (tick_running_cases (T0 + 10000) (start T0 createTimer)). reflexivity.
Defined.

(** C9 (counterexample): after [stop()], [recordActivity()] still moves
    [lastActivity], and a later [resume()] of a manual pause adds to
    [pausedTime] again, which changes what [getSummary()] reports. *)
Lemma stop_not_frozen_counterexample :
  let ts := stop (T0 + 2000) (start T0 createTimer) in
  recordActivity (T0 + 3000) ts <> ts /\
  let tp := run createTimer [(T0, OpStart); (T0 + 500, OpTick false);
                             (T0 + 500, OpPause Manual); (T0 + 1000, OpStop)] in
  getSummary (T0 + 5000) (resume (T0 + 2000) tp) <> getSummary (T0 + 5000) tp.
Proof. vm_compute. split; discriminate. Qed.

(** C9 (amended): [stop()] sets [endTime] and clears the interval; no later
    [tick], [pause], [resume] or [recordActivity] call changes [startTime]
    or [endTime], so [getSummary().elapsed] stays what it was right after
    [stop()]; the other fields can still change. *)
Theorem stop_freezes_window (now : Z) (t : Timer) (calls : list (Z * Op)) :
  Forall (fun c => snd c <> OpStart /\ snd c <> OpStop) calls ->
  let ts := stop now t in
  let t' := run ts calls in
  ticking ts = false /\ endTime ts = Some now /\
  startTime t' = startTime t /\ endTime t' = Some now /\
  forall r, elapsed (getSummary r t') = elapsed (getSummary r ts).
Proof.
  intros Hall. simpl.
  destruct (run_keeps_window (stop now t) calls Hall) as [H1 H2].
  split; [reflexivity|]. split; [reflexivity|].
  split; [exact H1|]. split; [exact H2|].
  intros r. apply getSummary_elapsed_window; assumption.
Qed.

Lemma stop_freezes_window_witness :
  Forall (fun c => snd c <> OpStart /\ snd c <> OpStop)
    [(T0 + 3000, OpRecordActivity); (T0 + 4000, OpPause Manual);
     (T0 + 5000, OpResume); (T0 + 6000, OpTick false)] /\
  let ts := stop (T0 + 2000) (start T0 createTimer) in
  let t' := run ts [(T0 + 3000, OpRecordActivity); (T0 + 4000, OpPause Manual);
                    (T0 + 5000, OpResume); (T0 + 6000, OpTick false)] in
  ticking ts = false /\ endTime ts = Some (T0 + 2000) /\
  startTime t' = startTime (start T0 createTimer) /\
  endTime t' = Some (T0 + 2000) /\
  forall r, elapsed (getSummary r t') = elapsed (getSummary r ts).
Proof.
  assert (Hall : Forall (fun c => snd c <> OpStart /\ snd c <> OpStop)
    [(T0 + 3000, OpRecordActivity); (T0 + 4000, OpPause Manual);
     (T0 + 5000, OpResume); (T0 + 6000, OpTick false)])
    by (repeat constructor; discriminate).
  split; [exact Hall|].
  apply (stop_freezes_window (T0 + 2000) (start T0 createTimer) _ Hall).
Defined.

End TimerFacts.

Module SequencerTheorems.
Import Sequencer SequencerFacts.

(** C3: for every task list and seed, the shuffled sequence with DEMO
    appended ends with DEMO, holds DEMO exactly once, and its other
    elements are a permutation of the list's non-DEMO codes; a list without
    duplicates gives a sequence without duplicates. *)
Theorem sequence_demo_last_perm (l : list string) (seed : Z) :
  let r := ensureDemographicsLast (shuffleWithSeed l seed) in
  last r = Some DEMO /\
  length (filter (fun code => code = DEMO) r) = 1%nat /\
  removelast r ≡ₚ filter (fun code => code <> DEMO) l /\
  (NoDup l -> NoDup r).
Proof.
  simpl. split_and!.
  - apply ensureDemographicsLast_last.
  - apply ensureDemographicsLast_demo_once.
  - rewrite ensureDemographicsLast_removelast. by rewrite shuffleWithSeed_perm.
  - intros Hl. apply ensureDemographicsLast_NoDup. by rewrite shuffleWithSeed_perm.
Qed.

(** The device lists hold neither DEMO nor duplicates, so the sequence of
    [createNewSession] is a permutation of the device list followed by DEMO. *)
Lemma buildSequence_device (isMobile : bool) (seed : Z) :
  last (buildSequence isMobile seed) = Some DEMO /\
  removelast (buildSequence isMobile seed) ≡ₚ deviceTasks isMobile /\
  NoDup (buildSequence isMobile seed).
Proof.
  unfold buildSequence. split_and!.
  - apply ensureDemographicsLast_last.
  - rewrite ensureDemographicsLast_removelast, shuffleWithSeed_perm.
    destruct isMobile; reflexivity.
  - apply ensureDemographicsLast_NoDup. rewrite shuffleWithSeed_perm.
    destruct isMobile; vm_compute; repeat constructor; set_solver.
Qed.

(** The regression value for the code "ABCDEFGH" on a desktop. *)
Example buildSequence_ABCDEFGH :
  seedOf "ABCDEFGH" = 2042300548 /\
  buildSequence false (seedOf "ABCDEFGH") = ["VCN"; "ASLCT"; "RC"; "SN"; "ID"; "MRT"; "DEMO"].
Proof. split; reflexivity. Qed.

(** C4: equal session codes give equal seeds and equal task sequences:
    the hash, the Mulberry32 generator and the shuffle are functions of
    their inputs only. *)
Theorem seed_sequence_deterministic (c1 c2 : string) (isMobile : bool) :
  c1 = c2 ->
  seedOf c1 = seedOf c2 /\
  buildSequence isMobile (seedOf c1) = buildSequence isMobile (seedOf c2).
Proof. intros ->. split; reflexivity. Qed.

Lemma seed_sequence_deterministic_witness :
  "ABCDEFGH" = "ABCDEFGH" /\
  seedOf "ABCDEFGH" = seedOf "ABCDEFGH" /\
  buildSequence false (seedOf "ABCDEFGH") = buildSequence false (seedOf "ABCDEFGH").
Proof.
  split; [reflexivity|].
  apply (seed_sequence_deterministic "ABCDEFGH" "ABCDEFGH" false). reflexivity.
Defined.

End SequencerTheorems.

Module CodeFacts.
Import Codes Samples.


Lemma list_ascii_of_string_app (s1 s2 : string) :
  list_ascii_of_string (s1 ++ s2) = list_ascii_of_string s1 ++ list_ascii_of_string s2.
Proof. induction s1 as [|c s1 IH]; simpl; [done|]. by rewrite IH. Qed.

Lemma length_list_ascii_of_string (s : string) :
  String.length s = length (list_ascii_of_string s).
Proof. induction s as [|c s IH]; simpl; auto. Qed.

Lemma charAt_chars (k : Z) :
  0 <= k < 36 -> exists c, charAt chars k = String c EmptyString /\ goodChar c.
Proof.
  intros Hk. destruct (Z_of_nat_complete k ltac:(lia)) as [n ->].
  assert (Hn : (n < 36)%nat) by lia. clear Hk.
  unfold goodChar.
  do 36 (destruct n as [|n]; [eexists; split; [reflexivity|vm_compute; auto]|]).
  lia.
Qed.

Lemma randomIndex_range (r : Z * Z) : validDraw r -> 0 <= randomIndex r 36 < 36.
Proof.
  unfold validDraw, randomIndex. destruct r as [p q]; simpl. intros Hr. split.
  - apply Z.div_pos; lia.
  - apply Z.div_lt_upper_bound; lia.
Qed.

Lemma generate_loop_shape (rnd : nat -> Z * Z) i n code :
  (forall j, validDraw (rnd j)) ->
  exists l, list_ascii_of_string (generate_loop rnd i n code) =
              list_ascii_of_string code ++ l /\
            length l = n /\ Forall goodChar l.
Proof.
  intros Hrnd. revert i code. induction n as [|n IH]; intros i code; simpl.
  - exists []. rewrite app_nil_r. auto.
  - destruct (charAt_chars (randomIndex (rnd i) 36) (randomIndex_range _ (Hrnd i)))
      as [c [Hc Hgood]].
    change (Z.of_nat 36) with 36. rewrite Hc.
    destruct (IH (S i) (String.append code (String c EmptyString))) as [l [Hl [Hlen Hall]]].
    exists (c :: l). rewrite Hl, list_ascii_of_string_app, <- app_assoc. simpl.
    split_and!; auto.
Qed.

Lemma dropWhite_id (l : list ascii) :
  Forall (fun c => isWhiteSpace c = false) l -> dropWhite l = l.
Proof. intros H. destruct H as [|c l Hc _]; simpl; [done|]. by rewrite Hc. Qed.

(** The generated code is eight characters of [A-Z0-9], and the
    normalisation [trim().toUpperCase()] of [resumeSession] leaves it
    unchanged. *)
Lemma generateCode_normal (rnd : nat -> Z * Z) :
  (forall i, validDraw (rnd i)) ->
  String.length (generateCode rnd) = 8%nat /\
  CODE_REGEX_test (generateCode rnd) = true /\
  toUpperCase (trim (generateCode rnd)) = generateCode rnd.
Proof.
  intros Hrnd. unfold generateCode.
  destruct (generate_loop_shape rnd 0 8 EmptyString Hrnd) as [l [Hl [Hlen Hall]]].
  change (list_ascii_of_string EmptyString) with (@nil ascii) in Hl.
  rewrite app_nil_l in Hl.
  assert (Hws : Forall (fun c => isWhiteSpace c = false) l).
  { eapply Forall_impl; [exact Hall|]. intros c (_ & ? & _); done. }
  split_and!.
  - by rewrite length_list_ascii_of_string, Hl.
  - unfold CODE_REGEX_test. rewrite length_list_ascii_of_string, Hl, Hlen. simpl.
    apply forallb_forall. intros c Hc. apply list_elem_of_In in Hc.
    rewrite Forall_forall in Hall. apply Hall, Hc.
  - unfold toUpperCase, trim. rewrite Hl.
    rewrite (dropWhite_id l Hws), (dropWhite_id (rev l)) by (by apply Forall_rev).
    rewrite rev_involutive, list_ascii_of_string_of_list_ascii.
    rewrite <- (string_of_list_ascii_of_string (generate_loop rnd 0 8 "")), Hl.
    f_equal. simpl. rewrite <- (map_id l) at 2. apply map_ext_in.
    intros c Hc. apply list_elem_of_In in Hc.
    rewrite Forall_forall in Hall. apply Hall, Hc.
Qed.

End CodeFacts.

Module StoreFacts.
Import Sequencer SequencerFacts Codes CodeFacts Store Samples.


Lemma rndExample_valid : forall i, validDraw (rndExample i).
Proof.
  intros i. unfold validDraw, rndExample; simpl.
  pose proof (Nat.mod_upper_bound (i * 7 + 3) 40 ltac:(lia)). lia.
Qed.

(** C10: every generated code has eight characters of [A-Z0-9], passes
    [CODE_REGEX] unchanged by [trim().toUpperCase()], and so is never
    refused by the entry check of [resumeSession]. *)
Theorem generateCode_passes_resume_check (rnd : nat -> Z * Z) :
  (forall i, validDraw (rnd i)) ->
  String.length (generateCode rnd) = 8%nat /\
  CODE_REGEX_test (generateCode rnd) = true /\
  forall f now b, resumeSession f now (generateCode rnd) b <> BadCode.
Proof.
  intros Hrnd. destruct (generateCode_normal rnd Hrnd) as (Hlen & Hre & Hnorm).
  split_and!; [done|done|]. intros f now b. unfold resumeSession.
  rewrite Hnorm, Hre. simpl.
  destruct (dbConfigured f); [|discriminate].
  destruct (firestore b !! generateCode rnd) as [d|]; [|discriminate].
  destruct (saveState _ _ _ _). discriminate.
Qed.

Lemma generateCode_passes_resume_check_witness :
  (forall i, validDraw (rndExample i)) /\
  String.length (generateCode rndExample) = 8%nat /\
  CODE_REGEX_test (generateCode rndExample) = true /\
  forall f now b, resumeSession f now (generateCode rndExample) b <> BadCode.
Proof.
  split; [exact rndExample_valid|].
  apply (generateCode_passes_resume_check rndExample rndExample_valid).
Defined.

Lemma saveState_fields f now s b :
  let s' := fst (saveState f now s b) in
  sessionCode s' = sessionCode s /\ sequence s' = sequence s /\
  completedTasks s' = completedTasks s /\ skippedTasks s' = skippedTasks s /\
  currentTaskIndex s' = currentTaskIndex s /\ totalTimeSpent s' = totalTimeSpent s.
Proof. unfold saveState. destruct (String.eqb _ _); simpl; auto 10. Qed.

Lemma saveState_nonempty f now s b :
  sessionCode s <> EmptyString ->
  saveState f now s b = (set_lastActivity now s, tryCatch (saveBody f now (set_lastActivity now s)) b).
Proof.
  intros Hne. unfold saveState.
  destruct (String.eqb_spec (sessionCode s) EmptyString); [contradiction|reflexivity].
Qed.

(** With Firestore configured and its write landing, the document of the
    code holds the saved state, whatever happens to the later writes. *)
Lemma saveBody_firestore f now s b :
  dbConfigured f = true -> firestoreSetThrows f = false -> firestoreSetRejects f = false ->
  firestore (tryCatch (saveBody f now s) b) =
  <[sessionCode s := mkDoc s (Some now)]> (firestore b).
Proof.
  intros Hdb Hth Hrej. unfold tryCatch, saveBody, mbind, modify.
  rewrite Hdb, Hth, Hrej.
  destruct (localSetThrows f), (recentSetThrows f); reflexivity.
Qed.

Lemma createNewSession_shape prev form mobile proceed rnd now idSuffix f b s1 b1 :
  createNewSession prev form mobile proceed rnd now idSuffix f b = Some (s1, b1) ->
  sessionCode s1 = generateCode rnd /\
  exists sq, sequence s1 = ensureDemographicsLast sq.
Proof.
  unfold createNewSession. intros H.
  destruct (negb _); [discriminate H|].
  destruct (mobile && negb proceed); [discriminate H|].
  injection H as H.
  match type of H with
  | saveState ?f ?n ?S ?b = _ => pose proof (saveState_fields f n S b) as Hf
  end.
  rewrite H in Hf. simpl in Hf. destruct Hf as (Hc & Hq & _).
  split; [exact Hc|eexists; exact Hq].
Qed.

(** C7: a session created with valid parameters, saved, then resumed with
    its code (Firestore configured, the save's write landed) comes back with
    the same sequence, completed set and skipped set as the snapshot before
    the save. *)
Theorem save_resume_roundtrip prev form mobile proceed rnd now1 idSuffix f1 b0 s1 b1
    f2 now2 f3 now3 :
  (forall i, validDraw (rnd i)) ->
  createNewSession prev form mobile proceed rnd now1 idSuffix f1 b0 = Some (s1, b1) ->
  dbConfigured f2 = true -> firestoreSetThrows f2 = false -> firestoreSetRejects f2 = false ->
  dbConfigured f3 = true ->
  let (s2, b2) := saveState f2 now2 s1 b1 in
  exists s3 b3,
    resumeSession f3 now3 (sessionCode s2) b2 = Resumed s3 b3 /\
    sequence s3 = sequence s1 /\ completedTasks s3 = completedTasks s1 /\
    skippedTasks s3 = skippedTasks s1.
Proof.
  intros Hrnd Hcreate Hdb2 Hth2 Hrej2 Hdb3.
  destruct (createNewSession_shape _ _ _ _ _ _ _ _ _ _ _ Hcreate) as [Hcode [sq Hsq]].
  destruct (generateCode_normal rnd Hrnd) as (Hlen & Hre & Hnorm).
  assert (Hne : sessionCode s1 <> EmptyString).
  { rewrite Hcode. intros HE. rewrite HE in Hlen. discriminate. }
  rewrite (saveState_nonempty f2 now2 s1 b1 Hne).
  set (s2 := set_lastActivity now2 s1).
  assert (Hc2 : sessionCode s2 = generateCode rnd) by exact Hcode.
  unfold resumeSession. rewrite Hc2, Hnorm, Hre, Hdb3. simpl.
  rewrite saveBody_firestore by assumption.
  rewrite Hc2, lookup_insert_eq. simpl.
  destruct (saveState f3 now3 _ _) as [s3 b3] eqn:Hs3.
  match type of Hs3 with
  | saveState ?f ?n ?S ?b = _ => pose proof (saveState_fields f n S b) as Hf
  end.
  rewrite Hs3 in Hf. simpl in Hf. destruct Hf as (_ & Hq & Hcomp & Hskip & _).
  exists s3, b3. split_and!; [reflexivity| | |].
  - rewrite Hq. unfold s2. simpl. rewrite Hsq. apply ensureDemographicsLast_idem.
  - rewrite Hcomp. reflexivity.
  - rewrite Hskip. reflexivity.
Qed.

(** C8 (code bug): [saveState] runs its writes in one [try] block, so a
    synchronous failure stops the writes after it: with [localStorage]
    throwing, Firestore has the snapshot but neither the local cache nor the
    sheet log receives it; with Firestore's [set] throwing, no backend
    receives it.  Only the Firestore promise rejection is isolated. *)
Theorem saveState_failure_skips_later_backends :
  let b1 := snd (saveState localQuotaFault T0 sampleSession emptyBackends) in
  let b2 := snd (saveState firestoreThrowFault T0 sampleSession emptyBackends) in
  firestore b1 !! sessionCode sampleSession =
    Some (mkDoc (set_lastActivity T0 sampleSession) (Some T0)) /\
  localCache b1 = ∅ /\ recentSession b1 = None /\ sheetLog b1 = [] /\
  b2 = emptyBackends.
Proof. vm_compute. split_and!; reflexivity. Qed.

Lemma includes_snoc l x : includes (l ++ [x]) x = true.
Proof.
  unfold includes. rewrite existsb_app. simpl. rewrite String.eqb_refl.
  by rewrite orb_true_r.
Qed.

Lemma filter_idem (l : list string) x :
  filter (fun code => code <> x) (filter (fun code => code <> x) l) =
  filter (fun code => code <> x) l.
Proof.
  rewrite list_filter_filter. apply list_filter_iff. intros; tauto.
Qed.

Lemma advance_ge fuel i sq d : advance fuel i sq d >= i.
Proof.
  revert i. induction fuel as [|fuel IH]; intros i; simpl; [lia|].
  destruct (_ && _ && _); [specialize (IH (i + 1)); lia|lia].
Qed.

Lemma getSummary_elapsed_stop now t :
  Timer.elapsed (Timer.getSummary now (Timer.stop now t)) = now - Timer.num (Timer.startTime t).
Proof.
  unfold Timer.getSummary, Timer.stop. simpl.
  destruct (negb (now =? 0)); destruct (_ >? _); reflexivity.
Qed.

Lemma completeTask_spec f now x t s b :
  includes TASK_CODES x = true ->
  let '(t', s', b') := completeTask f now x t s b in
  let completed := if includes (completedTasks s) x then completedTasks s
                   else completedTasks s ++ [x] in
  t' = Timer.stop now t /\
  completedTasks s' = completed /\
  skippedTasks s' = filter (fun code => code <> x) (skippedTasks s) /\
  sequence s' = sequence s /\
  totalTimeSpent s' = totalTimeSpent s + (now - Timer.num (Timer.startTime t)) /\
  currentTaskIndex s' =
    advance (length (sequence s)) (currentTaskIndex s + 1) (sequence s) completed.
Proof.
  intros Hx. unfold completeTask. rewrite Hx. simpl negb. cbv iota.
  match goal with
  | |- context [saveState ?f ?n ?S ?b] =>
      pose proof (saveState_fields f n S b) as Hf; destruct (saveState f n S b) as [s1 b1]
  end.
  simpl in Hf |- *. destruct Hf as (_ & Hq & Hc & Hs & Hi & Ht).
  rewrite Hq, Hc, Hs, Hi, Ht, getSummary_elapsed_stop. split_and!; reflexivity.
Qed.


(** C5 (counterexample): completing the current task "ID" twice (one
    second apart) adds the task timer's elapsed time to [totalTimeSpent]
    again and advances [currentTaskIndex] again. *)
Lemma completeTask_twice_counterexample :
  let '(t1, s1, b1) := completeTask noFaults (T0 + 60000) "ID" sampleTaskTimer
                         sampleSession emptyBackends in
  let '(t2, s2, b2) := completeTask noFaults (T0 + 61000) "ID" t1 s1 b1 in
  completedTasks s2 = completedTasks s1 /\
  totalTimeSpent s1 = 59000 /\ totalTimeSpent s2 = 119000 /\
  currentTaskIndex s1 = 1 /\ currentTaskIndex s2 = 2.
Proof. vm_compute. split_and!; reflexivity. Qed.

(** C5 (amended): a second [completeTask(x)] right after the first leaves
    [completedTasks] and [skippedTasks] as the first call left them, but it
    adds the stopped task timer's elapsed time (the second call's [now] minus
    the timer's [startTime]) to [totalTimeSpent] again and moves
    [currentTaskIndex] forward again, past already completed tasks. *)
Theorem completeTask_twice (f1 f2 : Faults) (now1 now2 : Z) (x : string)
    (timer : Timer.Timer) (s : Session) (b : Backends) :
  includes TASK_CODES x = true ->
  let '(t1, s1, b1) := completeTask f1 now1 x timer s b in
  let '(t2, s2, b2) := completeTask f2 now2 x t1 s1 b1 in
  completedTasks s2 = completedTasks s1 /\
  skippedTasks s2 = skippedTasks s1 /\
  sequence s2 = sequence s1 /\
  totalTimeSpent s2 = totalTimeSpent s1 + (now2 - Timer.num (Timer.startTime timer)) /\
  currentTaskIndex s2 =
    advance (length (sequence s1)) (currentTaskIndex s1 + 1) (sequence s1)
      (completedTasks s1) /\
  currentTaskIndex s2 > currentTaskIndex s1.
Proof.
  intros Hx.
  pose proof (completeTask_spec f1 now1 x timer s b Hx) as H1.
  destruct (completeTask f1 now1 x timer s b) as [[t1 s1] b1].
  destruct H1 as (Ht1 & Hc1 & Hs1 & Hq1 & _).
  pose proof (completeTask_spec f2 now2 x t1 s1 b1 Hx) as H2.
  destruct (completeTask f2 now2 x t1 s1 b1) as [[t2 s2] b2].
  destruct H2 as (_ & Hc2 & Hs2 & Hq2 & Ht2 & Hi2).
  assert (Hin : includes (completedTasks s1) x = true).
  { rewrite Hc1. destruct (includes (completedTasks s) x) eqn:E; [exact E|apply includes_snoc]. }
  rewrite Hin in Hc2, Hi2.
  split_and!; try assumption.
  - rewrite Hs2, Hs1. apply filter_idem.
  - rewrite Ht2, Ht1. reflexivity.
  - pose proof (advance_ge (length (sequence s1)) (currentTaskIndex s1 + 1)
                  (sequence s1) (completedTasks s1)). lia.
Qed.

Lemma completeTask_twice_witness :
  includes TASK_CODES "ID" = true /\
  let '(t1, s1, b1) := completeTask noFaults (T0 + 60000) "ID" sampleTaskTimer
                         sampleSession emptyBackends in
  let '(t2, s2, b2) := completeTask noFaults (T0 + 61000) "ID" t1 s1 b1 in
  completedTasks s2 = completedTasks s1 /\
  skippedTasks s2 = skippedTasks s1 /\
  sequence s2 = sequence s1 /\
  totalTimeSpent s2 = totalTimeSpent s1 +
    ((T0 + 61000) - Timer.num (Timer.startTime sampleTaskTimer)) /\
  currentTaskIndex s2 =
    advance (length (sequence s1)) (currentTaskIndex s1 + 1) (sequence s1)
      (completedTasks s1) /\
  currentTaskIndex s2 > currentTaskIndex s1.
Proof.
  split; [reflexivity|].
  apply (completeTask_twice noFaults noFaults (T0 + 60000) (T0 + 61000) "ID"
           sampleTaskTimer sampleSession emptyBackends).
  reflexivity.
Defined.

Lemma save_resume_roundtrip_witness :
  (forall i, validDraw (rndExample i)) /\
  createNewSession initialState sampleForm false false rndExample T0 "0000"
    noFaults emptyBackends =
    Some (sampleSession,
          snd (saveState noFaults T0 (set_lastActivity T0 sampleSession) emptyBackends)) /\
  let (s2, b2) := saveState noFaults (T0 + 5000) sampleSession
                    (snd (saveState noFaults T0 (set_lastActivity T0 sampleSession)
                            emptyBackends)) in
  exists s3 b3,
    resumeSession noFaults (T0 + 86400000) (sessionCode s2) b2 = Resumed s3 b3 /\
    sequence s3 = sequence sampleSession /\
    completedTasks s3 = completedTasks sampleSession /\
    skippedTasks s3 = skippedTasks sampleSession.
Proof.
  assert (Hc : createNewSession initialState sampleForm false false rndExample T0 "0000"
                 noFaults emptyBackends =
               Some (sampleSession,
                     snd (saveState noFaults T0 (set_lastActivity T0 sampleSession)
                            emptyBackends))) by (vm_compute; reflexivity).
  split; [exact rndExample_valid|]. split; [exact Hc|].
  apply (save_resume_roundtrip initialState sampleForm false false rndExample T0 "0000"
           noFaults emptyBackends sampleSession _ noFaults (T0 + 5000) noFaults
           (T0 + 86400000) rndExample_valid Hc); reflexivity.
Defined.

End StoreFacts.

Module AggregatorFacts.
Import Aggregator Samples.

Lemma sumPositive_nonneg f code rows : sumPositive f code rows >= 0.
Proof.
  unfold sumPositive.
  assert (H : forall acc, acc >= 0 ->
    foldl (fun acc r => if String.eqb (pSession r) code && (f r >? 0) then acc + f r else acc)
      acc rows >= 0).
  { induction rows as [|r rows IH]; intros acc Hacc; simpl; [lia|].
    apply IH. destruct (String.eqb _ _ && _) eqn:E; [|lia].
    apply andb_prop in E as [_ E]. apply Z.gtb_lt in E. lia. }
  apply H. lia.
Qed.

Lemma window_ordered ss code now :
  fst (computeSessionWindowMs_ ss code now) <= snd (computeSessionWindowMs_ ss code now).
Proof.
  unfold computeSessionWindowMs_. cbv zeta.
  match goal with |- context [match fst ?a with _ => _ end] => destruct a as [mn mx] end.
  simpl. destruct mn as [m|], mx as [x|]; simpl;
    try match goal with |- context [if ?c then _ else _] => destruct c eqn:E end;
    rewrite ?Z.ltb_lt, ?Z.ltb_ge in *; lia.
Qed.

(** C6 (counterexample): a 600-second session whose only task logged 100 s
    active and 200 s inactive gets 300 s idle (written as 5 min), not
    600 - 100 - 0 = 500 s: the inactive seconds are subtracted too. *)
Lemma idle_subtracts_inactive_counterexample :
  option_map (fun row => idleSec (recomputeTotals sampleSheets "CJPV18EK" row 0))
    (sessionsRow sampleSheets "CJPV18EK") = Some 300 /\
  updateTotalTime sampleSheets "CJPV18EK" 0 = Some (10, 2, 5, 0) /\
  Z.max 0 (600 - 100 - 0) = 500.
Proof. vm_compute. split_and!; reflexivity. Qed.

(** C6 (amended): for a session with a row, [updateTotalTime] derives the
    window [start <= end] from all logs, total seconds
    [max(0, round((end - start)/1000))], active and inactive seconds as the
    sums of the session's positive Task Progress entries, paused seconds as
    60 times the row's paused minutes, and idle seconds
    [max(0, total - active - paused - inactive)]; it writes the four values
    rounded to minutes. *)
Theorem updateTotalTime_idle (ss : Sheets) (code : string) (now : Z) (row : SessionRow) :
  sessionsRow ss code = Some row ->
  let win := computeSessionWindowMs_ ss code now in
  let t := recomputeTotals ss code row now in
  fst win <= snd win /\
  totalSec t = Z.max 0 (roundDiv (snd win - fst win) 1000) /\
  activeSec t = sumPositive pActiveSec code (progressRows ss) /\ activeSec t >= 0 /\
  inactiveSec t = sumPositive pInactiveSec code (progressRows ss) /\ inactiveSec t >= 0 /\
  pausedSec t = pausedMinCell row * 60 /\
  idleSec t = Z.max 0 (totalSec t - activeSec t - pausedSec t - inactiveSec t) /\
  updateTotalTime ss code now =
    Some (roundDiv (totalSec t) 60, roundDiv (activeSec t) 60,
          roundDiv (idleSec t) 60, roundDiv (pausedSec t) 60).
Proof.
  intros Hrow. cbv zeta. split_and!.
  - apply window_ordered.
  - reflexivity.
  - reflexivity.
  - apply sumPositive_nonneg.
  - reflexivity.
  - apply sumPositive_nonneg.
  - reflexivity.
  - reflexivity.
  - unfold updateTotalTime. rewrite Hrow. reflexivity.
Qed.

Lemma updateTotalTime_idle_witness :
  sessionsRow sampleSheets "CJPV18EK" =
    Some (mkSessionRow (Some T0) (Some (T0 + 600000)) 0) /\
  let win := computeSessionWindowMs_ sampleSheets "CJPV18EK" 0 in
  let t := recomputeTotals sampleSheets "CJPV18EK" (mkSessionRow (Some T0) (Some (T0 + 600000)) 0) 0 in
  fst win <= snd win /\
  totalSec t = Z.max 0 (roundDiv (snd win - fst win) 1000) /\
  activeSec t = sumPositive pActiveSec "CJPV18EK" (progressRows sampleSheets) /\
  activeSec t >= 0 /\
  inactiveSec t = sumPositive pInactiveSec "CJPV18EK" (progressRows sampleSheets) /\
  inactiveSec t >= 0 /\
  pausedSec t = pausedMinCell (mkSessionRow (Some T0) (Some (T0 + 600000)) 0) * 60 /\
  idleSec t = Z.max 0 (totalSec t - activeSec t - pausedSec t - inactiveSec t) /\
  updateTotalTime sampleSheets "CJPV18EK" 0 =
    Some (roundDiv (totalSec t) 60, roundDiv (activeSec t) 60,
          roundDiv (idleSec t) 60, roundDiv (pausedSec t) 60).
Proof.
  assert (Hrow : sessionsRow sampleSheets "CJPV18EK" =
                 Some (mkSessionRow (Some T0) (Some (T0 + 600000)) 0)) by reflexivity.
  split; [exact Hrow|].
  apply (updateTotalTime_idle sampleSheets "CJPV18EK" 0 _ Hrow).
Defined.

End AggregatorFacts.

Module FlowFacts.
Import Sequencer Store Flow Samples StoreFacts.

Lemma includes_spec l x : includes l x = true <-> x ∈ l.
Proof.
  unfold includes. rewrite existsb_exists. split.
  - intros (y & Hy & E). apply String.eqb_eq in E. subst. by apply list_elem_of_In.
  - intros Hx. exists x. split; [by apply list_elem_of_In|apply String.eqb_refl].
Qed.

Lemma includes_false l x : includes l x = false <-> x ∉ l.
Proof. rewrite <- includes_spec. destruct (includes l x); split; congruence || tauto. Qed.

Lemma advance_spec fuel i sq d :
  0 <= i -> (Z.to_nat (Z.of_nat (length sq) - i) <= fuel)%nat ->
  let r := advance fuel i sq d in
  i <= r <= Z.max i (Z.of_nat (length sq)) /\
  (forall k, i <= k < r -> exists c, sq !! Z.to_nat k = Some c /\ c ∈ d) /\
  (r < Z.of_nat (length sq) -> exists c, sq !! Z.to_nat r = Some c /\ c ∉ d).
Proof.
  revert i. induction fuel as [|fuel IH]; intros i Hi Hf; simpl.
  - split_and!; [lia|lia|intros; lia|intros; lia].
  - destruct (decide (i < Z.of_nat (length sq))) as [Hlt|Hge].
    + assert (Hc : exists c, sq !! Z.to_nat i = Some c) by
        (apply lookup_lt_is_Some_2; lia).
      destruct Hc as [c Hc]. rewrite Hc.
      replace (i <? Z.of_nat (length sq)) with true by (symmetry; by apply Z.ltb_lt).
      replace (0 <=? i) with true by (symmetry; by apply Z.leb_le). simpl.
      destruct (includes d c) eqn:Ed.
      * apply includes_spec in Ed.
        destruct (IH (i + 1) ltac:(lia) ltac:(lia)) as (Hb & Hall & Hnext).
        split_and!; [lia|lia| |exact Hnext].
        intros k Hk. destruct (decide (k = i)) as [->|Hne]; [by eauto|].
        apply Hall. lia.
      * apply includes_false in Ed.
        split_and!; [lia|lia|intros; lia|intros _; by eauto].
    + replace (i <? Z.of_nat (length sq)) with false by (symmetry; apply Z.ltb_ge; lia).
      simpl. split_and!; [lia|lia|intros; lia|intros; lia].
Qed.

Lemma set_currentTaskType_fields ty s :
  sessionCode (set_currentTaskType ty s) = sessionCode s /\
  sequence (set_currentTaskType ty s) = sequence s /\
  completedTasks (set_currentTaskType ty s) = completedTasks s /\
  skippedTasks (set_currentTaskType ty s) = skippedTasks s /\
  currentTaskIndex (set_currentTaskType ty s) = currentTaskIndex s /\
  totalTimeSpent (set_currentTaskType ty s) = totalTimeSpent s /\
  currentTaskType (set_currentTaskType ty s) = ty.
Proof. done. Qed.

Lemma skipTask_spec f now x t s b :
  includes TASK_CODES x = true ->
  let '(t', s', b') := skipTask f now x t s b in
  let completed := if includes (completedTasks s) x then completedTasks s
                   else completedTasks s ++ [x] in
  t' = Timer.stop now t /\
  sessionCode s' = sessionCode s /\
  completedTasks s' = completed /\
  skippedTasks s' = (if includes (skippedTasks s) x then skippedTasks s
                     else skippedTasks s ++ [x]) /\
  sequence s' = sequence s /\
  totalTimeSpent s' = totalTimeSpent s /\
  currentTaskIndex s' =
    advance (length (sequence s)) (currentTaskIndex s + 1) (sequence s) completed /\
  currentTaskType s' = EmptyString.
Proof.
  intros Hx. unfold skipTask. rewrite Hx. simpl negb. cbv iota.
  match goal with
  | |- context [saveState ?f ?n ?S ?b] =>
      pose proof (saveState_fields f n S b) as Hf; destruct (saveState f n S b) as [s1 b1]
  end.
  simpl in Hf |- *. destruct Hf as (Hk & Hq & Hc & Hs & Hi & Ht).
  rewrite Hk, Hq, Hc, Hs, Hi, Ht. split_and!; reflexivity.
Qed.









(** After [completeTask] or [skipTask] of a task code, from an index of at
    least -1, the new [currentTaskIndex] is the first position after the
    old one whose task is not completed, or the sequence length when there
    is none. *)
Theorem taskStep_next_index (t : Timer.Timer) (s : Session) (b : Backends)
    (f : Faults) (now : Z) (op : TaskOp) :
  includes TASK_CODES (taskOpCode op) = true -> -1 <= currentTaskIndex s ->
  let s' := snd (fst (taskStep (t, s, b) (f, now, op))) in
  let r := currentTaskIndex s' in
  currentTaskIndex s + 1 <= r <= Z.max (currentTaskIndex s + 1) (Z.of_nat (length (sequence s))) /\
  (forall k, currentTaskIndex s + 1 <= k < r ->
     exists c, sequence s !! Z.to_nat k = Some c /\ c ∈ completedTasks s') /\
  (r < Z.of_nat (length (sequence s)) ->
     exists c, sequence s !! Z.to_nat r = Some c /\ c ∉ completedTasks s').
Proof.
  intros Hx Hi. destruct op as [x|x]; simpl in Hx |- *.
  - pose proof (completeTask_spec f now x t s b Hx) as Hsp.
    destruct (completeTask f now x t s b) as [[t' s'] b']. simpl.
    destruct Hsp as (_ & Hc & _ & _ & _ & Hr). rewrite Hr, Hc.
    apply advance_spec; lia.
  - pose proof (skipTask_spec f now x t s b Hx) as Hsp.
    destruct (skipTask f now x t s b) as [[t' s'] b']. simpl.
    destruct Hsp as (_ & _ & Hc & _ & _ & _ & Hr & _). rewrite Hr, Hc.
    apply advance_spec; lia.
Qed.

Lemma taskStep_next_index_witness :
  includes TASK_CODES (taskOpCode (TSkip "RC")) = true /\ -1 <= currentTaskIndex sampleSession /\
  (let s' := snd (fst (taskStep (sampleTaskTimer, sampleSession, emptyBackends)
                                (noFaults, T0 + 60000, TSkip "RC"))) in
   let r := currentTaskIndex s' in
   currentTaskIndex sampleSession + 1 <= r <=
     Z.max (currentTaskIndex sampleSession + 1) (Z.of_nat (length (sequence sampleSession))) /\
   (forall k, currentTaskIndex sampleSession + 1 <= k < r ->
      exists c, sequence sampleSession !! Z.to_nat k = Some c /\ c ∈ completedTasks s') /\
   (r < Z.of_nat (length (sequence sampleSession)) ->
      exists c, sequence sampleSession !! Z.to_nat r = Some c /\ c ∉ completedTasks s')).
Proof.
  assert (Hx : includes TASK_CODES (taskOpCode (TSkip "RC")) = true) by reflexivity.
  assert (Hi : -1 <= currentTaskIndex sampleSession) by (vm_compute; discriminate).
  split; [exact Hx|]. split; [exact Hi|].
  exact (taskStep_next_index sampleTaskTimer sampleSession emptyBackends noFaults (T0 + 60000)
           (TSkip "RC") Hx Hi).
Defined.


End FlowFacts.

Module TimerRunFacts.
Import Timer TimerFacts Samples.

Ltac timer_cases :=
  repeat (simpl in *; match goal with
         | |- context [if ?b then _ else _] => let E := fresh "E" in destruct b eqn:E
         | H : context [if ?b then _ else _] |- _ => let E := fresh "E" in destruct b eqn:E
         end).

Lemma step_clockInv T t now op :
  clockInv T t -> T <= now -> clockInv now (step t (now, op)).
Proof.
  unfold clockInv. intros (H0 & Ha & Hi & Hp & Hc & Hl & Hla & Hps) Hn.
  destruct op as [|h| |r| |]; simpl;
    unfold start, tick, recordActivity, pause, resume, stop; timer_cases;
    rewrite ?Z.gtb_lt, ?Z.gtb_ltb, ?Z.ltb_lt, ?Z.ltb_ge in *; simpl in *; lia.
Qed.

Lemma run_clockInv T t calls :
  clockInv T t -> Forall (fun c => T <= fst c) calls ->
  Sorted (fun a b => fst a <= fst b) calls ->
  exists T', clockInv T' (run t calls).
Proof.
  unfold run. revert T t. induction calls as [|[now op] calls IH]; intros T t Hinv Hall Hs;
    cbn [foldl]; [by exists T|].
  inversion Hall as [|? ? Hn Hrest]; subst. simpl in Hn.
  apply (IH now (step t (now, op))).
  - by apply (step_clockInv T).
  - apply (Sorted_extends (R := fun a b => fst a <= fst b)) in Hs; [done|].
    intros a b c; lia.
  - by inversion Hs.
Qed.

(** With a clock that never goes back (times at least 0, in order), the
    active, inactivity and paused buckets and the pause count of a timer
    from [createTimer()] stay non-negative, whatever calls it receives. *)
Theorem run_buckets_nonneg (calls : list (Z * Op)) :
  Forall (fun c => 0 <= fst c) calls ->
  Sorted (fun a b => fst a <= fst b) calls ->
  let t := run createTimer calls in
  0 <= activeTime t /\ 0 <= inactivityTime t /\ 0 <= pausedTime t /\ 0 <= pauseCount t.
Proof.
  intros Hall Hs. destruct (run_clockInv 0 createTimer calls) as [T' HT]; try done.
  all: unfold clockInv in *; simpl in *; lia.
Qed.

Lemma run_buckets_nonneg_witness :
  Forall (fun c => 0 <= fst c) overshoot_calls /\
  Sorted (fun a b => fst a <= fst b) overshoot_calls /\
  (let t := run createTimer overshoot_calls in
   0 <= activeTime t /\ 0 <= inactivityTime t /\ 0 <= pausedTime t /\ 0 <= pauseCount t).
Proof.
  assert (H1 : Forall (fun c => 0 <= fst c) overshoot_calls).
  { unfold overshoot_calls, T0. repeat constructor; simpl; lia. }
  assert (H2 : Sorted (fun a b => fst a <= fst b) overshoot_calls).
  { unfold overshoot_calls, T0. repeat (constructor; simpl; try lia). }
  split; [exact H1|]. split; [exact H2|]. exact (run_buckets_nonneg overshoot_calls H1 H2).
Defined.

Lemma step_no_manual t now op :
  op <> OpPause Manual -> pausedTime t = 0 -> reasonIs (pauseReason t) Manual = false ->
  pausedTime (step t (now, op)) = 0 /\ reasonIs (pauseReason (step t (now, op))) Manual = false.
Proof.
  intros Hop Hp Hr. destruct op as [|h| |r| |]; simpl;
    unfold start, tick, recordActivity, pause, resume, stop; timer_cases;
    rewrite ?Hp, ?Hr in *; simpl in *; try rewrite Hr in *; simpl in *;
    try (split; [lia|]); try done.
  all: try (destruct r; simpl in *; congruence).
Qed.

(** Only manual pauses are counted as paused time: a timer from
    [createTimer()] that never receives [pause("manual")] keeps
    [pausedTime] at 0, whatever other pauses, resumes, ticks, restarts and
    stops it goes through. *)
Theorem paused_only_manual (calls : list (Z * Op)) :
  Forall (fun c => snd c <> OpPause Manual) calls ->
  pausedTime (run createTimer calls) = 0.
Proof.
  intros Hall. unfold run.
  assert (H : forall t, pausedTime t = 0 -> reasonIs (pauseReason t) Manual = false ->
            pausedTime (foldl step t calls) = 0).
  { induction calls as [|[now op] calls IH]; intros t Hp Hr; cbn [foldl]; [done|].
    inversion Hall as [|? ? Hop Hrest]; subst.
    destruct (step_no_manual t now op Hop Hp Hr) as [Hp' Hr'].
    exact (IH Hrest _ Hp' Hr'). }
  by apply H.
Qed.

Lemma paused_only_manual_witness :
  Forall (fun c => snd c <> OpPause Manual) away_calls /\
  pausedTime (run createTimer away_calls) = 0.
Proof.
  assert (H : Forall (fun c => snd c <> OpPause Manual) away_calls).
  { unfold away_calls. repeat constructor; simpl; discriminate. }
  split; [exact H|]. exact (paused_only_manual away_calls H).
Defined.

Lemma step_while_away t now op :
  isPaused t = true -> reasonIs (pauseReason t) Inactivity = false ->
  (exists h, op = OpTick h) \/ op = OpRecordActivity \/ (exists r, op = OpPause r) ->
  let t' := step t (now, op) in
  isPaused t' = true /\ pauseReason t' = pauseReason t /\ pauseStart t' = pauseStart t /\
  pauseCount t' = pauseCount t /\ activeTime t' = activeTime t /\
  inactivityTime t' = inactivityTime t /\ pausedTime t' = pausedTime t.
Proof.
  intros Hp Hr [[h ->]|[->|[r ->]]]; simpl;
    unfold tick, recordActivity, pause; rewrite ?Hp, ?Hr, ?andb_false_r; simpl;
    rewrite ?Hp, ?Hr; simpl; auto 10.
Qed.

Lemma run_while_away t calls :
  isPaused t = true -> reasonIs (pauseReason t) Inactivity = false ->
  Forall (fun c => (exists h, snd c = OpTick h) \/ snd c = OpRecordActivity \/
                   (exists r, snd c = OpPause r)) calls ->
  let t' := run t calls in
  isPaused t' = true /\ pauseReason t' = pauseReason t /\ pauseStart t' = pauseStart t /\
  pauseCount t' = pauseCount t /\ activeTime t' = activeTime t /\
  inactivityTime t' = inactivityTime t /\ pausedTime t' = pausedTime t.
Proof.
  unfold run. revert t. induction calls as [|[now op] calls IH]; intros t Hp Hr Hall;
    cbn [foldl]; [auto 10|].
  inversion Hall as [|? ? Hop Hrest]; subst.
  destruct (step_while_away t now op Hp Hr Hop) as (Hp1 & Hr1 & Hs1 & Hc1 & Ha1 & Hi1 & Hpt1).
  assert (Hr1' : reasonIs (pauseReason (step t (now, op))) Inactivity = false) by congruence.
  destruct (IH _ Hp1 Hr1' Hrest) as (Hp2 & Hr2 & Hs2 & Hc2 & Ha2 & Hi2 & Hpt2).
  split_and!; congruence.
Qed.

(** Time away from the page is counted in no bucket: when a running timer
    is paused for a hidden tab, a blur or an exit at [t1] and resumed at
    [t2], the ticks, activity and further pauses in between change nothing,
    and after the resume the active, inactivity and paused times are what
    they were before the pause; only the pause count has grown by one. *)
Theorem away_pause_not_counted (t : Timer) (r : Reason) (t1 t2 : Z)
    (calls : list (Z * Op)) :
  isPaused t = false -> r <> Manual -> r <> Inactivity ->
  Forall (fun c => (exists h, snd c = OpTick h) \/ snd c = OpRecordActivity \/
                   (exists r', snd c = OpPause r')) calls ->
  let t' := resume t2 (run (pause t1 r t) calls) in
  isPaused t' = false /\ activeTime t' = activeTime t /\
  inactivityTime t' = inactivityTime t /\ pausedTime t' = pausedTime t /\
  pauseCount t' = pauseCount t + 1 /\ lastTick t' = t2.
Proof.
  intros Hp Hm Hi Hall.
  assert (Hp1 : isPaused (pause t1 r t) = true) by (unfold pause; by rewrite Hp).
  assert (Hr1 : pauseReason (pause t1 r t) = Some r) by (unfold pause; by rewrite Hp).
  assert (Hr1' : reasonIs (pauseReason (pause t1 r t)) Inactivity = false)
    by (rewrite Hr1; destruct r; simpl; congruence).
  destruct (run_while_away _ calls Hp1 Hr1' Hall) as (Hp2 & Hr2 & _ & Hc2 & Ha2 & Hi2 & Hpt2).
  cbv zeta. unfold resume. rewrite Hp2. simpl.
  rewrite Hr2, Hr1. simpl.
  replace (reason_eqb r Manual) with false by (destruct r; simpl; congruence).
  simpl. rewrite Hc2, Ha2, Hi2, Hpt2. unfold pause. rewrite Hp. simpl.
  split_and!; reflexivity.
Qed.

Lemma away_pause_not_counted_witness :
  isPaused sampleTaskTimer = false /\ Visibility <> Manual /\ Visibility <> Inactivity /\
  Forall (fun c => (exists h, snd c = OpTick h) \/ snd c = OpRecordActivity \/
                   (exists r', snd c = OpPause r'))
    [(T0 + 3000, OpTick true); (T0 + 4000, OpPause Blur); (T0 + 5000, OpRecordActivity)] /\
  (let t' := resume (T0 + 60000)
               (run (pause (T0 + 2000) Visibility sampleTaskTimer)
                  [(T0 + 3000, OpTick true); (T0 + 4000, OpPause Blur);
                   (T0 + 5000, OpRecordActivity)]) in
   isPaused t' = false /\ activeTime t' = activeTime sampleTaskTimer /\
   inactivityTime t' = inactivityTime sampleTaskTimer /\
   pausedTime t' = pausedTime sampleTaskTimer /\
   pauseCount t' = pauseCount sampleTaskTimer + 1 /\ lastTick t' = T0 + 60000).
Proof.
  assert (H1 : isPaused sampleTaskTimer = false) by reflexivity.
  assert (H2 : Visibility <> Manual) by discriminate.
  assert (H3 : Visibility <> Inactivity) by discriminate.
  assert (H4 : Forall (fun c => (exists h, snd c = OpTick h) \/ snd c = OpRecordActivity \/
                   (exists r', snd c = OpPause r'))
    [(T0 + 3000, OpTick true); (T0 + 4000, OpPause Blur); (T0 + 5000, OpRecordActivity)]).
  { repeat (constructor; [simpl; eauto|]); constructor. }
  split; [exact H1|]. split; [exact H2|]. split; [exact H3|]. split; [exact H4|].
  exact (away_pause_not_counted sampleTaskTimer Visibility (T0 + 2000) (T0 + 60000) _
                H1 H2 H3 H4).
Defined.

Lemma elapsed_eq now t :
  elapsed (getSummary now t) =
  (if truthy (endTime t) then num (endTime t) else now) - num (startTime t).
Proof. unfold getSummary. destruct (_ >? _); reflexivity. Qed.

(** The one task timer is reused for every task: [start()] resets the
    buckets but keeps the [endTime] of the previous [stop()].  Until the
    next [stop()], [getSummary().elapsed] runs from the new start to that
    old end (negative once the timer has been restarted after it); a
    [stop()] at [t2 <> 0] makes it [t2 - t1] again, whatever the timer held
    before [start()]. *)
Theorem restart_keeps_old_end (t : Timer) (t1 t2 now : Z) (calls : list (Z * Op)) :
  Forall (fun c => snd c <> OpStart /\ snd c <> OpStop) calls ->
  let t' := run (start t1 t) calls in
  elapsed (getSummary now t') = (if truthy (endTime t) then num (endTime t) else now) - t1 /\
  (t2 <> 0 -> elapsed (getSummary now (stop t2 t')) = t2 - t1).
Proof.
  intros Hall. destruct (run_keeps_window (start t1 t) calls Hall) as [Hs He].
  cbv zeta. rewrite !elapsed_eq. simpl. rewrite Hs, He. simpl. split; [reflexivity|].
  intros H2. replace (negb (t2 =? 0)) with true by (symmetry; apply negb_true_iff, Z.eqb_neq; lia).
  reflexivity.
Qed.

Lemma restart_keeps_old_end_witness :
  Forall (fun c => snd c <> OpStart /\ snd c <> OpStop)
    [(T0 + 71000, OpTick false); (T0 + 72000, OpRecordActivity)] /\
  (let t' := run (start (T0 + 70000) (stop (T0 + 60000) sampleTaskTimer))
                 [(T0 + 71000, OpTick false); (T0 + 72000, OpRecordActivity)] in
   elapsed (getSummary (T0 + 80000) t') =
     (if truthy (endTime (stop (T0 + 60000) sampleTaskTimer))
      then num (endTime (stop (T0 + 60000) sampleTaskTimer)) else T0 + 80000) - (T0 + 70000) /\
   (T0 + 90000 <> 0 -> elapsed (getSummary (T0 + 80000) (stop (T0 + 90000) t')) =
                       T0 + 90000 - (T0 + 70000))).
Proof.
  assert (H : Forall (fun c => snd c <> OpStart /\ snd c <> OpStop)
                [(T0 + 71000, OpTick false); (T0 + 72000, OpRecordActivity)]).
  { repeat constructor; simpl; discriminate. }
  split; [exact H|].
  exact (restart_keeps_old_end (stop (T0 + 60000) sampleTaskTimer) (T0 + 70000) (T0 + 90000)
           (T0 + 80000) _ H).
Defined.

End TimerRunFacts.

Module StudyPauseFacts.
Import Timer Flow Samples.

(** [pause(reason)] at [t1] then [resume()] at [t2] on a running timer. *)
Lemma pause_resume t r t1 t2 :
  isPaused t = false -> t1 <> 0 ->
  let t' := resume t2 (pause t1 r t) in
  isPaused t' = false /\ pauseCount t' = pauseCount t + 1 /\
  activeTime t' = activeTime t /\ inactivityTime t' = inactivityTime t /\
  pausedTime t' = (if reason_eqb r Manual then pausedTime t + (t2 - t1) else pausedTime t) /\
  startTime t' = startTime t.
Proof.
  intros Hp H1. cbv zeta. unfold pause. rewrite Hp. unfold resume. simpl.
  replace (t1 =? 0) with false by (symmetry; by apply Z.eqb_neq).
  rewrite andb_true_r. split_and!; reflexivity.
Qed.

(** The pause button then the resume button: [pauseStudy()] at [t1 <> 0]
    and [resumeStudy()] at [t2], with both timers started and running,
    add [t2 - t1] to the study's [totalPausedTime] and to the paused time
    of each timer, clear [pauseStart], count one pause on each timer and
    leave their active and inactivity times alone. *)
Theorem pause_resume_study (sp : StudyPause) (taskT sessT : Timer) (t1 t2 : Z) :
  t1 <> 0 ->
  truthy (startTime taskT) = true -> isPaused taskT = false ->
  truthy (startTime sessT) = true -> isPaused sessT = false ->
  let '(sp1, a1, b1) := pauseStudy t1 sp taskT sessT in
  let '(sp2, a2, b2) := resumeStudy t2 sp1 a1 b1 in
  spPauseStart sp2 = None /\ spTotalPaused sp2 = spTotalPaused sp + (t2 - t1) /\
  spLastPauseType sp2 = "manual" /\
  isPaused a2 = false /\ pausedTime a2 = pausedTime taskT + (t2 - t1) /\
  pauseCount a2 = pauseCount taskT + 1 /\ activeTime a2 = activeTime taskT /\
  inactivityTime a2 = inactivityTime taskT /\
  isPaused b2 = false /\ pausedTime b2 = pausedTime sessT + (t2 - t1) /\
  pauseCount b2 = pauseCount sessT + 1 /\ activeTime b2 = activeTime sessT /\
  inactivityTime b2 = inactivityTime sessT.
Proof.
  intros H1 Hta Hpa Hts Hps. unfold pauseStudy. rewrite Hta, Hts.
  destruct (pause_resume taskT Manual t1 t2 Hpa H1) as (Pa & Ca & Aa & Ia & Ta & Sa).
  destruct (pause_resume sessT Manual t1 t2 Hps H1) as (Pb & Cb & Ab & Ib & Tb & Sb).
  unfold resumeStudy. simpl.
  replace (t1 =? 0) with false by (symmetry; by apply Z.eqb_neq). simpl.
  assert (Sa' : truthy (startTime (pause t1 Manual taskT)) = true)
    by (unfold pause; rewrite Hpa; exact Hta).
  assert (Sb' : truthy (startTime (pause t1 Manual sessT)) = true)
    by (unfold pause; rewrite Hps; exact Hts).
  rewrite Sa', Sb'. simpl in Ta, Tb. split_and!; simpl; auto.
Qed.

Lemma pause_resume_study_witness :
  T0 + 5000 <> 0 /\
  truthy (startTime sampleTaskTimer) = true /\ isPaused sampleTaskTimer = false /\
  truthy (startTime sampleTaskTimer) = true /\ isPaused sampleTaskTimer = false /\
  (let '(sp1, a1, b1) := pauseStudy (T0 + 5000) (mkStudyPause None 0 "") sampleTaskTimer
                            sampleTaskTimer in
   let '(sp2, a2, b2) := resumeStudy (T0 + 65000) sp1 a1 b1 in
   spPauseStart sp2 = None /\ spTotalPaused sp2 = spTotalPaused (mkStudyPause None 0 "") + (T0 + 65000 - (T0 + 5000)) /\
   spLastPauseType sp2 = "manual" /\
   isPaused a2 = false /\ pausedTime a2 = pausedTime sampleTaskTimer + (T0 + 65000 - (T0 + 5000)) /\
   pauseCount a2 = pauseCount sampleTaskTimer + 1 /\ activeTime a2 = activeTime sampleTaskTimer /\
   inactivityTime a2 = inactivityTime sampleTaskTimer /\
   isPaused b2 = false /\ pausedTime b2 = pausedTime sampleTaskTimer + (T0 + 65000 - (T0 + 5000)) /\
   pauseCount b2 = pauseCount sampleTaskTimer + 1 /\ activeTime b2 = activeTime sampleTaskTimer /\
   inactivityTime b2 = inactivityTime sampleTaskTimer).
Proof.
  assert (H1 : T0 + 5000 <> 0) by (unfold T0; lia).
  assert (H2 : truthy (startTime sampleTaskTimer) = true) by reflexivity.
  assert (H3 : isPaused sampleTaskTimer = false) by reflexivity.
  split; [exact H1|]. split; [exact H2|]. split; [exact H3|]. split; [exact H2|].
  split; [exact H3|].
  exact (pause_resume_study (mkStudyPause None 0 "") sampleTaskTimer sampleTaskTimer
           (T0 + 5000) (T0 + 65000) H1 H2 H3 H2 H3).
Defined.

(** Save-and-exit then the resume button: after [saveAndExit()] at
    [t1 <> 0] and [resumeStudy()] at [t2], the study's [totalPausedTime]
    grows by [t2 - t1] and [lastPauseType] is "exit", but the timers were
    paused with reason "exit", which [resume()] does not count: their
    paused, active and inactivity times are unchanged. *)
Theorem exit_resume_study (sp : StudyPause) (taskT sessT : Timer) (t1 t2 : Z) :
  t1 <> 0 ->
  truthy (startTime taskT) = true -> isPaused taskT = false ->
  truthy (startTime sessT) = true -> isPaused sessT = false ->
  let '(sp1, a1, b1) := saveAndExit t1 sp taskT sessT in
  let '(sp2, a2, b2) := resumeStudy t2 sp1 a1 b1 in
  spPauseStart sp2 = None /\ spTotalPaused sp2 = spTotalPaused sp + (t2 - t1) /\
  spLastPauseType sp2 = "exit" /\
  isPaused a2 = false /\ pausedTime a2 = pausedTime taskT /\
  activeTime a2 = activeTime taskT /\ inactivityTime a2 = inactivityTime taskT /\
  isPaused b2 = false /\ pausedTime b2 = pausedTime sessT /\
  activeTime b2 = activeTime sessT /\ inactivityTime b2 = inactivityTime sessT.
Proof.
  intros H1 Hta Hpa Hts Hps. unfold saveAndExit. rewrite Hta, Hts.
  destruct (pause_resume taskT Exit t1 t2 Hpa H1) as (Pa & Ca & Aa & Ia & Ta & Sa).
  destruct (pause_resume sessT Exit t1 t2 Hps H1) as (Pb & Cb & Ab & Ib & Tb & Sb).
  unfold resumeStudy. simpl.
  replace (t1 =? 0) with false by (symmetry; by apply Z.eqb_neq). simpl.
  assert (Sa' : truthy (startTime (pause t1 Exit taskT)) = true)
    by (unfold pause; rewrite Hpa; exact Hta).
  assert (Sb' : truthy (startTime (pause t1 Exit sessT)) = true)
    by (unfold pause; rewrite Hps; exact Hts).
  rewrite Sa', Sb'. simpl in Ta, Tb. split_and!; simpl; auto.
Qed.

Lemma exit_resume_study_witness :
  T0 + 5000 <> 0 /\
  truthy (startTime sampleTaskTimer) = true /\ isPaused sampleTaskTimer = false /\
  truthy (startTime sampleTaskTimer) = true /\ isPaused sampleTaskTimer = false /\
  (let '(sp1, a1, b1) := saveAndExit (T0 + 5000) (mkStudyPause None 0 "") sampleTaskTimer
                            sampleTaskTimer in
   let '(sp2, a2, b2) := resumeStudy (T0 + 65000) sp1 a1 b1 in
   spPauseStart sp2 = None /\ spTotalPaused sp2 = spTotalPaused (mkStudyPause None 0 "") + (T0 + 65000 - (T0 + 5000)) /\
   spLastPauseType sp2 = "exit" /\
   isPaused a2 = false /\ pausedTime a2 = pausedTime sampleTaskTimer /\
   activeTime a2 = activeTime sampleTaskTimer /\ inactivityTime a2 = inactivityTime sampleTaskTimer /\
   isPaused b2 = false /\ pausedTime b2 = pausedTime sampleTaskTimer /\
   activeTime b2 = activeTime sampleTaskTimer /\ inactivityTime b2 = inactivityTime sampleTaskTimer).
Proof.
  assert (H1 : T0 + 5000 <> 0) by (unfold T0; lia).
  assert (H2 : truthy (startTime sampleTaskTimer) = true) by reflexivity.
  assert (H3 : isPaused sampleTaskTimer = false) by reflexivity.
  split; [exact H1|]. split; [exact H2|]. split; [exact H3|]. split; [exact H2|].
  split; [exact H3|].
  exact (exit_resume_study (mkStudyPause None 0 "") sampleTaskTimer sampleTaskTimer
           (T0 + 5000) (T0 + 65000) H1 H2 H3 H2 H3).
Defined.

End StudyPauseFacts.

Module SequencerRangeFacts.
Import JS Sequencer Samples.

Lemma toInt32_range z : - two31 <= toInt32 z < two31.
Proof.
  unfold toInt32, two31, two32.
  pose proof (Z.mod_pos_bound z 4294967296 ltac:(lia)).
  destruct (_ >=? _) eqn:E; [apply Z.geb_le in E|rewrite Z.geb_leb in E; apply Z.leb_gt in E]; lia.
Qed.

Lemma ushr0_range z : 0 <= ushr z 0 < two32.
Proof.
  unfold ushr, toUint32. rewrite Z.shiftr_0_r. apply Z.mod_pos_bound. unfold two32; lia.
Qed.

Lemma pick_le u i : 0 <= u < two32 -> (pick u i <= i)%nat.
Proof.
  intros Hu. unfold pick. unfold two32 in *.
  assert (Hq : u * (Z.of_nat i + 1) / 4294967296 < Z.of_nat i + 1).
  { apply Z.div_lt_upper_bound; [lia|]. nia. }
  assert (0 <= u * (Z.of_nat i + 1) / 4294967296) by (apply Z.div_pos; lia).
  lia.
Qed.

Lemma hashCode_from_range h s :
  - two31 <= h < two31 -> - two31 <= hashCode_from h s < two31.
Proof.
  revert h. induction s as [|c s IH]; intros h Hh; simpl; [done|].
  apply IH. unfold bor. apply toInt32_range.
Qed.

(** [hashCode(code)] is a signed 32-bit integer, so the seed
    [Math.abs(hashCode(code))] that [createNewSession] stores as
    [sequenceIndex] and passes to [mulberry32] lies in [0, 2^31]; the
    empty string hashes to 0. *)
Theorem hashCode_seed_range (code : string) :
  - two31 <= hashCode code < two31 /\ 0 <= seedOf code <= two31 /\ hashCode "" = 0.
Proof.
  pose proof (hashCode_from_range 0 code ltac:(unfold two31; lia)) as H.
  unfold seedOf, hashCode. split_and!; try lia; reflexivity.
Qed.

(** One draw of the [mulberry32] generator is [u / 2^32] with
    [0 <= u < 2^32], i.e. in [0, 1); so each swap index
    [Math.floor(rng() * (i + 1))] of the shuffle lies in [0, i], and the
    new generator state is a signed 32-bit integer. *)
Theorem mulberry32_draw_range (a : Z) (i : nat) :
  let '(u, a') := mulberry32_next a in
  0 <= u < two32 /\ (pick u i <= i)%nat /\ - two31 <= a' < two31.
Proof.
  unfold mulberry32_next. cbv zeta. split_and!.
  - apply ushr0_range.
  - apply ushr0_range.
  - apply pick_le, ushr0_range.
  - unfold bor. apply toInt32_range.
  - unfold bor. apply toInt32_range.
Qed.

End SequencerRangeFacts.

Module SavedSessionFacts.
Import Sequencer Store Flow Samples StoreFacts.

Lemma saveBody_local f now s b :
  firestoreSetThrows f = false -> localSetThrows f = false -> recentSetThrows f = false ->
  localCache (tryCatch (saveBody f now s) b) = <[sessionCode s := s]> (localCache b) /\
  recentSession (tryCatch (saveBody f now s) b) = Some (sessionCode s).
Proof.
  intros Hf Hl Hr. unfold tryCatch, saveBody, mbind, modify, mret.
  rewrite Hl, Hr, Hf.
  destruct (dbConfigured f), (firestoreSetRejects f); simpl; split; reflexivity.
Qed.

(** A reload after a successful [saveState()]: on a fresh page (no
    session code yet), [checkSavedSession()] at [now'] finds the saved
    session through [recent_session].  Less than 30 days after the save,
    an accepted offer adopts that state with its sequence normalised by
    [ensureDemographicsLast] and the same code, task lists, index and total
    time; a declined offer, or one 30 or more days after the save, adopts
    nothing. *)
Theorem saved_session_offer (f : Faults) (now : Z) (s : Session) (b : Backends)
    (st : Session) (now' : Z) (accept : bool) (f2 : Faults) (now2 : Z) :
  nonEmpty (sessionCode s) = true ->
  firestoreSetThrows f = false -> localSetThrows f = false -> recentSetThrows f = false ->
  sessionCode st = EmptyString ->
  let b1 := snd (saveState f now s b) in
  match checkSavedSession st b1 now' accept f2 now2 with
  | Some (s2, _) =>
      now' - now < THIRTY_DAYS_MS /\ accept = true /\
      sessionCode s2 = sessionCode s /\
      sequence s2 = ensureDemographicsLast (sequence s) /\
      completedTasks s2 = completedTasks s /\ skippedTasks s2 = skippedTasks s /\
      currentTaskIndex s2 = currentTaskIndex s /\ totalTimeSpent s2 = totalTimeSpent s
  | None => THIRTY_DAYS_MS <= now' - now \/ accept = false
  end.
Proof.
  intros Hne Hf Hl Hr Hst. cbv zeta.
  assert (Hne' : sessionCode s <> EmptyString).
  { intros E. unfold nonEmpty in Hne. rewrite E in Hne. discriminate. }
  rewrite (saveState_nonempty f now s b Hne'). simpl.
  destruct (saveBody_local f now (set_lastActivity now s) b Hf Hl Hr) as [Hc Hrs].
  unfold checkSavedSession. rewrite Hst. simpl. rewrite Hrs. simpl.
  change (sessionCode (set_lastActivity now s)) with (sessionCode s).
  rewrite Hne. simpl. rewrite Hc, lookup_insert_eq. simpl.
  destruct (now' - now <? THIRTY_DAYS_MS) eqn:E; destruct accept; simpl;
    rewrite ?Z.ltb_lt, ?Z.ltb_ge in E; try (left; lia); try (right; reflexivity).
  match goal with
  | |- context [saveState ?f ?n ?S ?b] =>
      pose proof (saveState_fields f n S b) as Hs; destruct (saveState f n S b) as [s2 b2]
  end.
  simpl in Hs |- *. destruct Hs as (Hk & Hq & Hcc & Hsk & Hi & Ht).
  rewrite Hk, Hq, Hcc, Hsk, Hi, Ht. split_and!; auto.
Qed.

Lemma saved_session_offer_witness :
  nonEmpty (sessionCode sampleSession) = true /\
  firestoreSetThrows noFaults = false /\ localSetThrows noFaults = false /\
  recentSetThrows noFaults = false /\ sessionCode initialState = EmptyString /\
  (let b1 := snd (saveState noFaults T0 sampleSession emptyBackends) in
   match checkSavedSession initialState b1 (T0 + 86400000) true noFaults (T0 + 86400700) with
   | Some (s2, _) =>
       T0 + 86400000 - T0 < THIRTY_DAYS_MS /\ true = true /\
       sessionCode s2 = sessionCode sampleSession /\
       sequence s2 = ensureDemographicsLast (sequence sampleSession) /\
       completedTasks s2 = completedTasks sampleSession /\
       skippedTasks s2 = skippedTasks sampleSession /\
       currentTaskIndex s2 = currentTaskIndex sampleSession /\
       totalTimeSpent s2 = totalTimeSpent sampleSession
   | None => THIRTY_DAYS_MS <= T0 + 86400000 - T0 \/ true = false
   end).
Proof.
  assert (H1 : nonEmpty (sessionCode sampleSession) = true) by (vm_compute; reflexivity).
  assert (H2 : sessionCode initialState = EmptyString) by reflexivity.
  split; [exact H1|]. split; [reflexivity|]. split; [reflexivity|]. split; [reflexivity|].
  split; [exact H2|].
  exact (saved_session_offer noFaults T0 sampleSession emptyBackends initialState
           (T0 + 86400000) true noFaults (T0 + 86400700) H1 eq_refl eq_refl eq_refl H2).
Defined.

End SavedSessionFacts.

Module RecoveryFacts.
Import Store Recovery Samples.

Lemma byte_range c : 0 <= byte c < 256.
Proof. unfold byte. pose proof (nat_ascii_bounded c). lia. Qed.

Lemma chr_byte c : chr (byte c) = c.
Proof. unfold chr, byte. rewrite Nat2Z.id. apply ascii_nat_embedding. Qed.

Lemma range_forall (m : nat) (p : Z -> bool) :
  forallb (fun n => p (Z.of_nat n)) (seq 0 m) = true -> forall v, 0 <= v < Z.of_nat m -> p v = true.
Proof.
  intros H v Hv. rewrite forallb_forall in H.
  replace v with (Z.of_nat (Z.to_nat v)) by lia. apply H. apply in_seq. lia.
Qed.

Lemma b64char_facts v : 0 <= v < 64 ->
  b64value (b64char v) = Some v /\ isAsciiWhitespace (b64char v) = false /\
  isEq (b64char v) = false /\ byte (b64char v) < 128.
Proof.
  intros Hv.
  pose proof (range_forall 64 (fun v =>
     match b64value (b64char v) with Some w => w =? v | None => false end &&
     negb (isAsciiWhitespace (b64char v)) && negb (isEq (b64char v)) &&
     (byte (b64char v) <? 128)) ltac:(vm_compute; reflexivity) v ltac:(lia)) as H.
  apply andb_prop in H as [H H4]. apply andb_prop in H as [H H3].
  apply andb_prop in H as [H1 H2].
  destruct (b64value (b64char v)) as [w|]; [|discriminate]. apply Z.eqb_eq in H1.
  apply negb_true_iff in H2, H3. apply Z.ltb_lt in H4. subst. auto.
Qed.

Lemma b64sextets_range l : Forall (fun v => 0 <= v < 64) (b64sextets l).
Proof.
  induction l as [l IH] using (induction_ltof1 _ (@length _)).
  destruct l as [|x [|y [|z rest]]]; simpl.
  - constructor.
  - pose proof (byte_range x). repeat constructor; try (apply Z.mod_pos_bound; lia).
    all: try apply Z.div_pos; try lia. apply Z.div_lt_upper_bound; lia.
  - pose proof (byte_range x). pose proof (byte_range y).
    repeat constructor; try (apply Z.mod_pos_bound; lia).
    all: try apply Z.div_pos; try lia. apply Z.div_lt_upper_bound; lia.
  - pose proof (byte_range x). pose proof (byte_range y). pose proof (byte_range z).
    do 4 (constructor; [first [apply Z.mod_pos_bound; lia
                             | split; [apply Z.div_pos; lia | apply Z.div_lt_upper_bound; lia]]|]).
    apply IH. unfold ltof. simpl. lia.
Qed.

Lemma recombine n : 0 <= n ->
  n / 262144 * 262144 + n / 4096 mod 64 * 4096 + n / 64 mod 64 * 64 + n mod 64 = n.
Proof.
  intros Hn.
  pose proof (Z.div_mod n 64 ltac:(lia)) as E1.
  pose proof (Z.div_mod (n / 64) 64 ltac:(lia)) as E2.
  pose proof (Z.div_mod (n / 4096) 64 ltac:(lia)) as E3.
  rewrite Z.div_div in E2 by lia. rewrite Z.div_div in E3 by lia.
  change (64 * 64) with 4096 in E2. change (4096 * 64) with 262144 in E3. lia.
Qed.

Lemma b64bytes_sextets l : b64bytes (b64sextets l) = l.
Proof.
  induction l as [l IH] using (induction_ltof1 _ (@length _)).
  destruct l as [|x [|y [|z rest]]].
  - reflexivity.
  - simpl. pose proof (byte_range x) as Hx.
    set (n := byte x * 65536).
    assert (E : n / 262144 * 262144 + n / 4096 mod 64 * 4096 = n).
    { pose proof (recombine n ltac:(lia)) as R.
      assert (n mod 64 = 0).
      { subst n. replace (byte x * 65536) with (byte x * 1024 * 64) by ring.
        apply Z.mod_mul. lia. }
      assert (n / 64 mod 64 = 0).
      { subst n. replace (byte x * 65536) with (byte x * 16 * 64 * 64) by ring.
        rewrite Z.div_mul by lia. apply Z.mod_mul. lia. }
      lia. }
    rewrite E. subst n. rewrite Z.div_mul by lia. rewrite chr_byte. reflexivity.
  - simpl. pose proof (byte_range x). pose proof (byte_range y).
    set (n := byte x * 65536 + byte y * 256).
    assert (E : n / 262144 * 262144 + n / 4096 mod 64 * 4096 + n / 64 mod 64 * 64 = n).
    { pose proof (recombine n ltac:(lia)) as R.
      assert (n mod 64 = 0).
      { subst n. replace (byte x * 65536 + byte y * 256) with ((byte x * 1024 + byte y * 4) * 64)
          by ring. apply Z.mod_mul. lia. }
      lia. }
    rewrite E. subst n.
    assert (E1 : (byte x * 65536 + byte y * 256) / 65536 = byte x) by (Z.to_euclidean_division_equations; lia).
    assert (E2 : (byte x * 65536 + byte y * 256) / 256 mod 256 = byte y).
    { replace (byte x * 65536 + byte y * 256) with ((byte y + byte x * 256) * 256) by ring.
      rewrite Z.div_mul, Z.mod_add by lia. apply Z.mod_small. lia. }
    rewrite E1, E2, !chr_byte. reflexivity.
  - cbn [b64sextets app b64bytes]. pose proof (byte_range x). pose proof (byte_range y).
    pose proof (byte_range z).
    set (n := byte x * 65536 + byte y * 256 + byte z).
    rewrite (recombine n ltac:(lia)). rewrite IH by (unfold ltof; simpl; lia). subst n.
    assert (E1 : (byte x * 65536 + byte y * 256 + byte z) / 65536 = byte x) by (Z.to_euclidean_division_equations; lia).
    assert (E2 : (byte x * 65536 + byte y * 256 + byte z) / 256 mod 256 = byte y).
    { replace (byte x * 65536 + byte y * 256 + byte z) with
        (byte z + (byte y + byte x * 256) * 256) by ring.
      rewrite Z.div_add by lia. rewrite (Z.div_small (byte z) 256) by lia.
      rewrite Z.add_0_l, Z.mod_add by lia. apply Z.mod_small. lia. }
    assert (E3 : (byte x * 65536 + byte y * 256 + byte z) mod 256 = byte z) by (Z.to_euclidean_division_equations; lia).
    rewrite E1, E2, E3, !chr_byte. reflexivity.
Qed.

Lemma b64padding_step x y z rest : b64padding (x :: y :: z :: rest) = b64padding rest.
Proof.
  unfold b64padding. replace (length (x :: y :: z :: rest)) with (length rest + 1 * 3)%nat
    by (simpl; lia).
  rewrite Nat.Div0.mod_add. reflexivity.
Qed.

Lemma sextets_shape l :
  exists k, length (b64sextets l) =
    (4 * k + match b64padding l with [] => 0 | [_] => 3 | _ => 2 end)%nat /\
  (b64padding l = [] \/ b64padding l = ["="%char] \/ b64padding l = ["="%char; "="%char]).
Proof.
  induction l as [l IH] using (induction_ltof1 _ (@length _)).
  destruct l as [|x [|y [|z rest]]].
  - exists 0%nat. simpl. auto.
  - exists 0%nat. simpl. auto.
  - exists 0%nat. simpl. auto.
  - destruct (IH rest ltac:(unfold ltof; simpl; lia)) as (k & Hk & Hp).
    exists (S k). rewrite b64padding_step. split; [|exact Hp].
    cbn [b64sextets]. rewrite length_app. simpl length at 1. rewrite Hk. lia.
Qed.

Lemma b64values_map sx : Forall (fun v => 0 <= v < 64) sx -> b64values (map b64char sx) = Some sx.
Proof.
  induction 1 as [|v sx Hv _ IH]; [reflexivity|]. simpl.
  destruct (b64char_facts v Hv) as (-> & _). by rewrite IH.
Qed.

Lemma filter_white_id (l : list ascii) :
  Forall (fun c => isAsciiWhitespace c = false) l ->
  filter (fun c => negb (isAsciiWhitespace c)) l = l.
Proof.
  induction 1 as [|c l Hc _ IH]; [reflexivity|].
  rewrite filter_cons_True by (rewrite Hc; exact I). by rewrite IH.
Qed.

Lemma stripPadding_app (M P : list ascii) :
  Forall (fun c => isEq c = false) M -> (length (M ++ P) mod 4 = 0)%nat ->
  P = [] \/ (P = ["="%char] /\ M <> []) \/ P = ["="%char; "="%char] ->
  stripPadding (M ++ P) = M.
Proof.
  intros HM Hlen HP. unfold stripPadding. rewrite Hlen. simpl.
  apply Forall_rev in HM.
  destruct HP as [->|[[-> Hne]| ->]].
  - rewrite app_nil_r. destruct (rev M) as [|c1 [|c2 r]] eqn:E; [reflexivity| |].
    + inversion HM as [|? ? H1 _]. by rewrite H1.
    + inversion HM as [|? ? H1 _]. by rewrite H1.
  - rewrite rev_app_distr. simpl.
    destruct (rev M) as [|c2 r] eqn:E.
    + exfalso. apply Hne. apply (f_equal (@rev ascii)) in E. by rewrite rev_involutive in E.
    + inversion HM as [|? ? H2 _]. rewrite H2. change (rev (c2 :: r) = M).
      rewrite <- E. apply rev_involutive.
  - rewrite rev_app_distr. simpl. apply rev_involutive.
Qed.

Lemma mod4 k r : (r < 4)%nat -> ((4 * k + r) mod 4 = r)%nat.
Proof.
  intros Hr. rewrite Nat.add_comm, Nat.mul_comm, Nat.Div0.mod_add. apply Nat.mod_small. exact Hr.
Qed.

(** [atob(btoa(s))] gives [s] back for every string of code units up to
    0xFF. *)
Lemma atob_btoa s : atob (btoa s) = Some s.
Proof.
  unfold atob, btoa. rewrite list_ascii_of_string_of_list_ascii.
  set (l := list_ascii_of_string s).
  pose proof (b64sextets_range l) as Hr.
  destruct (sextets_shape l) as (k & Hk & Hp).
  assert (Hch : Forall (fun c => isAsciiWhitespace c = false /\ isEq c = false)
                  (map b64char (b64sextets l))).
  { apply Forall_map. eapply Forall_impl; [exact Hr|]. intros v Hv.
    destruct (b64char_facts v Hv) as (_ & H1 & H2 & _). auto. }
  rewrite filter_white_id.
  2:{ apply Forall_app. split.
      - eapply Forall_impl; [exact Hch|]. intros c [H _]. exact H.
      - destruct Hp as [->|[->| ->]]; repeat constructor. }
  rewrite stripPadding_app.
  - rewrite length_map. replace (length (b64sextets l) mod 4 =? 1)%nat with false.
    + rewrite b64values_map by exact Hr. rewrite b64bytes_sextets.
      f_equal. apply string_of_list_ascii_of_string.
    + symmetry. apply Nat.eqb_neq. rewrite Hk.
      destruct Hp as [->|[->| ->]]; rewrite mod4 by lia; lia.
  - eapply Forall_impl; [exact Hch|]. intros c [_ H]. exact H.
  - rewrite length_app, length_map, Hk.
    destruct Hp as [->|[->| ->]]; cbn [length].
    + replace (4 * k + 0 + 0)%nat with (4 * k + 0)%nat by lia. apply mod4. lia.
    + replace (4 * k + 3 + 1)%nat with (4 * (k + 1) + 0)%nat by lia. apply mod4. lia.
    + replace (4 * k + 2 + 2)%nat with (4 * (k + 1) + 0)%nat by lia. apply mod4. lia.
  - destruct Hp as [Hp|[Hp|Hp]]; rewrite Hp; auto. right; left. split; [done|].
    intros E. apply (f_equal (@length ascii)) in E. rewrite length_map, Hk, Hp in E.
    simpl in E. lia.
Qed.

Lemma ascii_forall (p : ascii -> bool) :
  forallb (fun n => p (chr (Z.of_nat n))) (seq 0 256) = true -> forall c, p c = true.
Proof.
  intros H c. rewrite <- (chr_byte c).
  apply (range_forall 256 (fun v => p (chr v)) H). pose proof (byte_range c). lia.
Qed.

Lemma encodeChar_decode c rest : byte c < 128 ->
  percentDecode (map plusToSpace (encodeChar c ++ rest)) =
  byte c :: percentDecode (map plusToSpace rest).
Proof.
  destruct c as [[] [] [] [] [] [] [] []]; intros H;
    try (apply Z.ltb_lt in H; vm_compute in H; discriminate H); reflexivity.
Qed.

Lemma encodeChar_no_amp c : Forall (fun d => Ascii.eqb d "&"%char = false) (encodeChar c).
Proof.
  assert (H : forall c, forallb (fun d => negb (Ascii.eqb d "&"%char)) (encodeChar c) = true).
  { apply ascii_forall. vm_compute. reflexivity. }
  specialize (H c). apply Forall_forall. intros d Hd.
  rewrite forallb_forall in H. apply negb_true_iff, H. by apply list_elem_of_In.
Qed.

Lemma percentDecode_encode (l : list ascii) :
  Forall (fun c => byte c < 128) l ->
  percentDecode (map plusToSpace (flat_map encodeChar l)) = map byte l.
Proof.
  induction 1 as [|c l Hc _ IH]; [reflexivity|].
  simpl. rewrite encodeChar_decode by exact Hc. by rewrite IH.
Qed.

Lemma utf8Token_ascii (l : list ascii) :
  Forall (fun c => byte c < 128) l -> utf8Token (map byte l) = TAscii (string_of_list_ascii l).
Proof.
  intros Hl. unfold utf8Token.
  replace (forallb (fun n => n <? 128) (map byte l)) with true.
  - f_equal. f_equal. rewrite map_map. rewrite <- (map_id l) at 2. apply map_ext.
    apply chr_byte.
  - symmetry. apply forallb_forall. intros n Hn. apply in_map_iff in Hn as (c & <- & Hc).
    apply Z.ltb_lt. rewrite Forall_forall in Hl. apply Hl. by apply list_elem_of_In.
Qed.

Lemma splitOn_none sep (l : list ascii) :
  Forall (fun d => Ascii.eqb d sep = false) l -> splitOn sep l = [l].
Proof.
  induction 1 as [|c l Hc _ IH]; [reflexivity|]. simpl. by rewrite Hc, IH.
Qed.

Lemma btoa_chars s :
  Forall (fun c => byte c < 128) (list_ascii_of_string (btoa s)).
Proof.
  unfold btoa. rewrite list_ascii_of_string_of_list_ascii. apply Forall_app. split.
  - apply Forall_map. eapply Forall_impl; [apply b64sextets_range|].
    intros v Hv. apply (b64char_facts v Hv).
  - unfold b64padding. destruct (_ mod 3)%nat as [|[|[|]]]; repeat constructor.
Qed.

Lemma btoa_nonempty s : s <> EmptyString -> btoa s <> EmptyString.
Proof.
  intros Hs E. apply (f_equal list_ascii_of_string) in E. unfold btoa in E.
  rewrite list_ascii_of_string_of_list_ascii in E.
  destruct s as [|x [|y [|z rest]]]; [done| | |]; simpl in E; discriminate.
Qed.

Lemma string_app_inv_head (a b c : string) : (a ++ b)%string = (a ++ c)%string -> b = c.
Proof.
  intros E. apply (f_equal list_ascii_of_string) in E.
  rewrite !CodeFacts.list_ascii_of_string_app in E. apply app_inv_head in E.
  rewrite <- (string_of_list_ascii_of_string b), <- (string_of_list_ascii_of_string c).
  by rewrite E.
Qed.

(** The query of a recovery link gives the code back to
    [checkRecoveryLink]. *)
Lemma checkRecoveryLink_query code :
  code <> EmptyString ->
  checkRecoveryLink ("?recover=" ++ encodeURIComponent (btoa code))%string =
  if (String.length code =? 8)%nat then Some code else None.
Proof.
  intros Hc. unfold checkRecoveryLink, parseQuery, encodeURIComponent.
  set (B := list_ascii_of_string (btoa code)).
  assert (HB : Forall (fun c => byte c < 128) B) by apply btoa_chars.
  rewrite CodeFacts.list_ascii_of_string_app, list_ascii_of_string_of_list_ascii. cbn [list_ascii_of_string app].
  cbn [Ascii.eqb Bool.eqb andb].
  rewrite splitOn_none.
  2:{ repeat (constructor; [reflexivity|]).
      induction B as [|c B IH]; [constructor|]. simpl. apply Forall_app. split.
      - apply encodeChar_no_amp.
      - apply IH. by inversion HB. }
  cbn [filter list_filter]. rewrite decide_True by discriminate.
  cbn [map splitFirst Ascii.eqb Bool.eqb andb].
  unfold decodeComponent at 2. rewrite percentDecode_encode by exact HB.
  rewrite utf8Token_ascii by exact HB. subst B. rewrite string_of_list_ascii_of_string.
  replace (decodeComponent _) with (TAscii "recover") by reflexivity.
  cbn [getParam]. rewrite String.eqb_refl.
  assert (Hne : nonEmpty (btoa code) = true).
  { unfold nonEmpty. apply negb_true_iff, String.eqb_neq. by apply btoa_nonempty. }
  rewrite Hne. simpl negb. cbv iota. rewrite atob_btoa.
  assert (Hne' : nonEmpty code = true) by (unfold nonEmpty; apply negb_true_iff, String.eqb_neq, Hc).
  by rewrite Hne'.
Qed.

(** [generateRecoveryLink] followed by [checkRecoveryLink] on the page the
    link opens: when the link is the page's address [origin ++ pathname ++
    search], where [search] is the query part ([location.search]), the code
    passed to [resumeSession] is the session's code, if it has the eight
    characters that [checkRecoveryLink] requires; otherwise nothing is
    resumed. *)
Theorem recovery_link_roundtrip origin pathname s search :
  nonEmpty (sessionCode s) = true ->
  generateRecoveryLink origin pathname s = (origin ++ pathname ++ search)%string ->
  checkRecoveryLink search =
  if (String.length (sessionCode s) =? 8)%nat then Some (sessionCode s) else None.
Proof.
  intros Hn Hl. unfold generateRecoveryLink in Hl. rewrite Hn in Hl.
  apply string_app_inv_head, string_app_inv_head in Hl. rewrite <- Hl.
  apply checkRecoveryLink_query. intros E. rewrite E in Hn. discriminate.
Qed.

Lemma recovery_link_roundtrip_witness :
  nonEmpty (sessionCode sampleSession) = true /\
  generateRecoveryLink "https://example.org" "/study/" sampleSession =
    ("https://example.org" ++ "/study/" ++ "?recover=Q0pQVjE4RUs%3D")%string /\
  checkRecoveryLink "?recover=Q0pQVjE4RUs%3D" = Some (sessionCode sampleSession).
Proof.
  assert (H1 : nonEmpty (sessionCode sampleSession) = true) by (vm_compute; reflexivity).
  assert (H2 : generateRecoveryLink "https://example.org" "/study/" sampleSession =
    ("https://example.org" ++ "/study/" ++ "?recover=Q0pQVjE4RUs%3D")%string)
    by (vm_compute; reflexivity).
  split; [exact H1|]. split; [exact H2|].
  rewrite (recovery_link_roundtrip _ _ _ _ H1 H2). vm_compute. reflexivity.
Defined.
End RecoveryFacts.

Module ProgressFacts.
Import Progress.

(** A Task Progress row that counts [t] as done for [code]. *)
Lemma completedSet_step_elem (code : string) (R acc : gset string) row t :
  t ∈ (if cellIs (cellAt row 1) code then
         let taskName := normalizeTaskName_ (cellString (cellAt row 4)) in
         if (cellIs (cellAt row 5) "Completed" || cellIs (cellAt row 5) "Skipped") &&
            bool_decide (taskName ∈ R)
         then {[taskName]} ∪ acc else acc
       else acc) <->
  t ∈ acc \/
  (t ∈ R /\ cellIs (cellAt row 1) code = true /\
   (cellIs (cellAt row 5) "Completed" || cellIs (cellAt row 5) "Skipped") = true /\
   normalizeTaskName_ (cellString (cellAt row 4)) = t).
Proof.
  destruct (cellIs (cellAt row 1) code) eqn:E1; [|intuition congruence].
  cbv zeta.
  destruct (cellIs (cellAt row 5) "Completed" || cellIs (cellAt row 5) "Skipped") eqn:E5;
    [|simpl; intuition congruence].
  destruct (bool_decide_reflect (normalizeTaskName_ (cellString (cellAt row 4)) ∈ R)) as [HR|HR];
    simpl; rewrite ?elem_of_union, ?elem_of_singleton.
  - split; [intros [->|H]; auto|intros [H|(_ & _ & _ & <-)]; auto].
  - split; [auto|intros [H|(H & _ & _ & <-)]; [auto|contradiction]].
Qed.

Lemma completedSet_elem progress code (R : gset string) t :
  t ∈ completedSet progress code R <->
  t ∈ R /\ exists row, row ∈ tail progress /\ cellIs (cellAt row 1) code = true /\
    (cellIs (cellAt row 5) "Completed" || cellIs (cellAt row 5) "Skipped") = true /\
    normalizeTaskName_ (cellString (cellAt row 4)) = t.
Proof.
  unfold completedSet.
  assert (G : forall rows (acc : gset string),
    t ∈ foldl (fun acc row =>
           if cellIs (cellAt row 1) code then
             let taskName := normalizeTaskName_ (cellString (cellAt row 4)) in
             if (cellIs (cellAt row 5) "Completed" || cellIs (cellAt row 5) "Skipped") &&
                bool_decide (taskName ∈ R)
             then {[taskName]} ∪ acc else acc
           else acc) acc rows <->
    t ∈ acc \/ (t ∈ R /\ exists row, row ∈ rows /\ cellIs (cellAt row 1) code = true /\
      (cellIs (cellAt row 5) "Completed" || cellIs (cellAt row 5) "Skipped") = true /\
      normalizeTaskName_ (cellString (cellAt row 4)) = t)).
  { induction rows as [|row rows IH]; intros acc; simpl.
    - split; [auto|]. intros [H|(_ & row & Hr & _)]; [done|]. by apply not_elem_of_nil in Hr.
    - rewrite IH, completedSet_step_elem. setoid_rewrite elem_of_cons. split.
      + intros [[H|H]|(HR & r & Hr & Hc)]; [auto|right; split; [tauto|]|].
        * exists row. tauto.
        * right. split; [done|]. exists r. tauto.
      + intros [H|(HR & r & [->|Hr] & Hc)]; [auto|left; right; tauto|].
        right. split; [done|]. exists r. tauto. }
  rewrite G. split; [intros [H|H]; [set_solver|done]|auto].
Qed.

(** The required list is already normalised and has no repeated name. *)
Lemma required_shape sessions progress code :
  let required := getRequiredTasksForSession_ sessions progress code in
  map normalizeTaskName_ required = required /\ NoDup required.
Proof.
  unfold getRequiredTasksForSession_. cbv zeta.
  destruct (contains _ "mobile"), (aslctOptional progress code);
    split; (reflexivity || (apply NoDup_alt; vm_compute; intros i j x Hi Hj;
      destruct i as [|[|[|[|[|[|]]]]]]; destruct j as [|[|[|[|[|[|]]]]]];
      simpl in *; congruence)).
Qed.


(** [updateCompletedTasksCount]'s counts: [completedCount] is at most
    [requiredTotal], [requiredTotal] is the number of tasks
    [getRequiredTasksForSession_] returns, and the two are equal exactly
    when every required task has a Completed or Skipped Task Progress row
    of the session whose normalised task name is that task. *)
Theorem taskCounts_spec sessions progress code :
  let required := getRequiredTasksForSession_ sessions progress code in
  let '(completedCount, requiredTotal) := taskCounts sessions progress code in
  (completedCount <= requiredTotal)%nat /\ requiredTotal = length required /\
  (completedCount = requiredTotal <->
   forall t, t ∈ required -> exists row, row ∈ tail progress /\
     cellIs (cellAt row 1) code = true /\
     (cellIs (cellAt row 5) "Completed" || cellIs (cellAt row 5) "Skipped") = true /\
     normalizeTaskName_ (cellString (cellAt row 4)) = t).
Proof.
  cbv zeta. unfold taskCounts. cbv zeta.
  destruct (required_shape sessions progress code) as [Hn Hd]. cbv zeta in Hn, Hd.
  rewrite Hn.
  set (required := getRequiredTasksForSession_ sessions progress code) in *.
  set (R := list_to_set required : gset string).
  set (C := completedSet progress code R).
  assert (HCR : C ⊆ R) by (intros t Ht; apply completedSet_elem in Ht; tauto).
  assert (HR : forall t, t ∈ R <-> t ∈ required) by (intros t; apply elem_of_list_to_set).
  split_and!.
  - by apply subseteq_size.
  - by apply size_list_to_set.
  - split.
    + intros Heq t Ht. assert (HtC : t ∈ C).
      { destruct (decide (R ⊆ C)) as [Hs|Hs]; [apply Hs, HR, Ht|].
        exfalso. assert (C ⊂ R) as Hlt by set_solver.
        apply subset_size in Hlt. lia. }
      apply completedSet_elem in HtC. tauto.
    + intros Hall. f_equal. apply set_eq. intros t. split; [apply HCR|].
      intros Ht. apply completedSet_elem. split; [done|]. apply Hall, HR, Ht.
Qed.

(** The status [updateCompletedTasksCount] writes: nothing without a
    Sessions row; otherwise ["Complete"] exactly when every required task
    has a Completed or Skipped row of the session, and ["Active"]
    otherwise. *)
Theorem updateCompletedTasksCount_status sessions progress code :
  updateCompletedTasksCount sessions progress code false = None /\
  exists counts status,
    updateCompletedTasksCount sessions progress code true = Some (counts, status) /\
    (status = "Complete" <->
     forall t, t ∈ getRequiredTasksForSession_ sessions progress code ->
       exists row, row ∈ tail progress /\ cellIs (cellAt row 1) code = true /\
         (cellIs (cellAt row 5) "Completed" || cellIs (cellAt row 5) "Skipped") = true /\
         normalizeTaskName_ (cellString (cellAt row 4)) = t) /\
    (status = "Complete" \/ status = "Active").
Proof.
  pose proof (taskCounts_spec sessions progress code) as H. cbv zeta in H.
  unfold updateCompletedTasksCount.
  destruct (taskCounts sessions progress code) as [k n]. destruct H as (_ & _ & Hiff).
  split; [reflexivity|]. eexists _, _. split; [reflexivity|]. rewrite <- Hiff.
  destruct (Nat.eqb_spec k n); split; try (split; [intros _; done|]); try tauto;
    split; [discriminate|tauto].
Qed.
Lemma logTaskSkipped_not_optional d :
  contains (toLowerCase (cellString (orCell (cellAt (logTaskSkipped_row d) 14) (CStr ""))))
    "does not know asl" = false.
Proof. reflexivity. Qed.

(** A task skip logged by [logTaskSkipped] never makes the ASLCT optional:
    the row puts the reason in column 13 (Activity Score (%)) and [true]
    in column 14, the Details column that [getRequiredTasksForSession_]
    searches for "does not know asl".  So while every Skipped row of Task Progress is such a
    row, the ASLCT stays among the required tasks, also for the client's
    reason "Does not know ASL". *)
Theorem logged_skip_keeps_aslct sessions progress code :
  (forall row, row ∈ tail progress -> cellIs (cellAt row 5) "Skipped" = true ->
     exists d, row = logTaskSkipped_row d) ->
  ASLCT_NAME ∈ getRequiredTasksForSession_ sessions progress code.
Proof.
  intros Hrows.
  assert (Hopt : aslctOptional progress code = false).
  { unfold aslctOptional. apply not_true_iff_false. intros Hex.
    apply existsb_exists in Hex as (row & Hin & Hrow).
    apply andb_true_iff in Hrow as [Hrow Hc]. apply andb_true_iff in Hrow as [_ Hs].
    destruct (Hrows row) as [d ->]; [by apply list_elem_of_In|exact Hs|].
    by rewrite logTaskSkipped_not_optional in Hc. }
  unfold getRequiredTasksForSession_. cbv zeta. rewrite Hopt.
  destruct (contains _ "mobile"); apply list_elem_of_In; simpl; tauto.
Qed.

Lemma logged_skip_keeps_aslct_witness :
  (forall row, row ∈ tail Samples.sampleProgress -> cellIs (cellAt row 5) "Skipped" = true ->
     exists d, row = logTaskSkipped_row d) /\
  cellAt (logTaskSkipped_row Samples.sampleSkip) 13 = CStr "Does not know ASL" /\
  ASLCT_NAME ∈ getRequiredTasksForSession_ [] Samples.sampleProgress "CJPV18EK".
Proof.
  assert (H : forall row, row ∈ tail Samples.sampleProgress ->
     cellIs (cellAt row 5) "Skipped" = true -> exists d, row = logTaskSkipped_row d).
  { intros row Hrow _. simpl in Hrow. apply list_elem_of_singleton in Hrow.
    exists Samples.sampleSkip. exact Hrow. }
  split; [exact H|]. split; [reflexivity|].
  exact (logged_skip_keeps_aslct [] Samples.sampleProgress "CJPV18EK" H).
Defined.
End ProgressFacts.

Module SanitizeFacts.
Import Sanitize.

Section Fold.
Variable stringify : JVal -> string.

Let step := fun (out : gmap string SVal) (kx : string * JVal) =>
  let '(k, x) := kx in
  if String.eqb k "__proto__" then out else <[k := sanitizeValue stringify x]> out.

Lemma step_lookup_ne out k x k' : k' <> k -> step out (k, x) !! k' = out !! k'.
Proof.
  intros Hne. unfold step. destruct (String.eqb k "__proto__"); [done|].
  by rewrite lookup_insert_ne.
Qed.

Lemma fold_lookup_notin fields (acc : gmap string SVal) k :
  k ∉ map fst fields -> foldl step acc fields !! k = acc !! k.
Proof.
  revert acc. induction fields as [|[k' x'] fields IH]; intros acc Hk; [done|].
  simpl in *. apply not_elem_of_cons in Hk as [Hne Hk].
  rewrite IH by done. by apply step_lookup_ne.
Qed.

Lemma fold_lookup_in fields (acc : gmap string SVal) k x :
  NoDup (map fst fields) -> (k, x) ∈ fields -> k <> "__proto__" ->
  foldl step acc fields !! k = Some (sanitizeValue stringify x).
Proof.
  revert acc. induction fields as [|[k' x'] fields IH]; intros acc Hd Hin Hp;
    [by apply not_elem_of_nil in Hin|].
  simpl in Hd. apply NoDup_cons in Hd as [Hk' Hd].
  apply elem_of_cons in Hin as [Heq|Hin]; simpl.
  - injection Heq as -> ->. rewrite fold_lookup_notin by done.
    unfold step. apply String.eqb_neq in Hp. rewrite Hp. apply lookup_insert_eq.
  - by apply IH.
Qed.

Lemma fold_lookup_back fields (acc : gmap string SVal) k y :
  foldl step acc fields !! k = Some y ->
  acc !! k = Some y \/
  exists x, (k, x) ∈ fields /\ k <> "__proto__" /\ y = sanitizeValue stringify x.
Proof.
  revert acc. induction fields as [|[k' x'] fields IH]; intros acc H; [by left|].
  simpl in H. apply IH in H as [H|(x & Hin & Hp & ->)].
  - unfold step in H. destruct (String.eqb_spec k' "__proto__") as [E|E]; [by left|].
    destruct (decide (k = k')) as [->|Hne].
    + rewrite lookup_insert_eq in H. injection H as <-. right. exists x'.
      split; [apply elem_of_cons; by left|done].
    + rewrite lookup_insert_ne in H by congruence. by left.
  - right. exists x. split; [apply elem_of_cons; by right|done].
Qed.

End Fold.

Lemma substring_prefix n (s : string) :
  String.length (substring 0 n s) = Nat.min n (String.length s) /\
  exists rest, s = (substring 0 n s ++ rest)%string.
Proof.
  revert n. induction s as [|c s IH]; intros [|n]; simpl.
  - split; [done|]. by exists EmptyString.
  - split; [done|]. by exists EmptyString.
  - split; [done|]. by exists (String c s).
  - destruct (IH n) as [Hl [rest Hr]]. split; [lia|]. exists rest. rewrite Hr at 1. reflexivity.
Qed.

(** [sanitizeInput_] on a parsed JSON value.  A value that is not an
    object or an array gives [{ error: 'Invalid data' }].  For an object
    with distinct keys ([JSON.parse] makes them so): the result has no
    [__proto__] key; every other key of the object maps to its sanitised
    value, and the result has no other key.  A string value becomes its
    first [min(length, 1000)] characters. *)
Theorem sanitizeInput_object stringify v :
  match v with
  | JObj fields =>
      NoDup (map fst fields) ->
      exists out, sanitizeInput_ stringify v = Some out /\
        out !! "__proto__" = None /\
        (forall k x, (k, x) ∈ fields -> k <> "__proto__" ->
           out !! k = Some (sanitizeValue stringify x)) /\
        (forall k y, out !! k = Some y ->
           exists x, (k, x) ∈ fields /\ y = sanitizeValue stringify x) /\
        (forall k s, (k, JStr s) ∈ fields -> k <> "__proto__" ->
           exists s', out !! k = Some (SStr s') /\
             String.length s' = Nat.min 1000 (String.length s) /\
             exists rest, s = (s' ++ rest)%string)
  | JArr _ => exists out, sanitizeInput_ stringify v = Some out
  | _ => sanitizeInput_ stringify v = None
  end.
Proof.
  destruct v as [s|q|b| |items|fields]; try reflexivity.
  - eexists. reflexivity.
  - intros Hd. eexists. split; [reflexivity|]. simpl forInEntries.
    split_and!.
    + destruct (foldl _ ∅ fields !! "__proto__") as [y|] eqn:E; [|done].
      exfalso. apply fold_lookup_back in E as [E|(x & _ & Hp & _)]; [done|congruence].
    + intros k x Hin Hp. by apply fold_lookup_in.
    + intros k y E. apply fold_lookup_back in E as [E|(x & Hin & _ & ->)]; [done|].
      by exists x.
    + intros k s Hin Hp. exists (substring 0 1000 s).
      split; [by apply (fold_lookup_in stringify fields ∅ k (JStr s))|].
      apply substring_prefix.
Qed.

Lemma sanitizeInput_object_witness :
  NoDup (map fst Samples.sampleBody) /\
  exists out, sanitizeInput_ Samples.sampleStringify (JObj Samples.sampleBody) = Some out /\
    out !! "__proto__" = None /\ out !! "extra" = Some (SStr "[true]").
Proof.
  assert (Hd : NoDup (map fst Samples.sampleBody)) by (vm_compute; repeat constructor; set_solver).
  split; [exact Hd|].
  destruct (sanitizeInput_object Samples.sampleStringify (JObj Samples.sampleBody) Hd)
    as (out & H1 & H2 & H3 & _).
  exists out. split; [exact H1|]. split; [exact H2|].
  apply (H3 "extra" (JArr [JBool true])); [vm_compute; right; right; right; right; left|discriminate].
Defined.
End SanitizeFacts.

Module WindowFacts.
Import Aggregator.

Lemma lowerTo_keep cur ms m :
  (exists c, cur = Some c /\ c <= m) -> exists c, lowerTo cur ms = Some c /\ c <= m.
Proof.
  intros (c & -> & Hc). destruct ms as [x|]; simpl; [|eauto].
  destruct (Z.ltb_spec x c); eexists; split; [reflexivity| |reflexivity|]; lia.
Qed.

Lemma raiseTo_keep cur ms m :
  (exists c, cur = Some c /\ m <= c) -> exists c, raiseTo cur ms = Some c /\ m <= c.
Proof.
  intros (c & -> & Hc). destruct ms as [x|]; simpl; [|eauto].
  destruct (Z.gtb_spec x c); eexists; split; [reflexivity| |reflexivity|]; lia.
Qed.

Lemma lowerTo_new cur m : exists c, lowerTo cur (Some m) = Some c /\ c <= m.
Proof.
  destruct cur as [c|]; simpl; [|eexists; split; [reflexivity|lia]].
  destruct (Z.ltb_spec m c); eexists; split; [reflexivity| |reflexivity|]; lia.
Qed.

Lemma raiseTo_new cur m : exists c, raiseTo cur (Some m) = Some c /\ m <= c.
Proof.
  destruct cur as [c|]; simpl; [|eexists; split; [reflexivity|lia]].
  destruct (Z.gtb_spec m c); eexists; split; [reflexivity| |reflexivity|]; lia.
Qed.

(** [Pmin m o]: the running minimum exists and is at most [m];
    [Pmax m o] the same for the maximum. *)
Lemma mergeAll_keep acc ts m :
  ((exists c, fst acc = Some c /\ c <= m) ->
   exists c, fst (mergeAll acc ts) = Some c /\ c <= m) /\
  ((exists c, snd acc = Some c /\ m <= c) ->
   exists c, snd (mergeAll acc ts) = Some c /\ m <= c).
Proof.
  unfold mergeAll. revert acc. induction ts as [|ms ts IH]; intros [mn mx]; [tauto|].
  simpl. split; intros H; apply IH; simpl.
  - by apply lowerTo_keep.
  - by apply raiseTo_keep.
Qed.

Lemma mergeAll_new acc ts m :
  Some m ∈ ts ->
  (exists c, fst (mergeAll acc ts) = Some c /\ c <= m) /\
  (exists c, snd (mergeAll acc ts) = Some c /\ m <= c).
Proof.
  unfold mergeAll. revert acc. induction ts as [|ms ts IH]; intros [mn mx] Hin;
    [by apply not_elem_of_nil in Hin|].
  simpl. apply elem_of_cons in Hin as [<-|Hin]; [|by apply IH].
  pose proof (mergeAll_keep (lowerTo mn (Some m), raiseTo mx (Some m)) ts m) as [H1 H2].
  unfold mergeAll in H1, H2. split; [apply H1|apply H2]; simpl.
  - apply lowerTo_new.
  - apply raiseTo_new.
Qed.

Lemma mergeAll_none acc ts : Forall (fun o => o = None) ts -> mergeAll acc ts = acc.
Proof.
  unfold mergeAll. intros H. revert acc. induction H as [|o ts -> _ IH]; intros [mn mx]; [done|].
  simpl. apply IH.
Qed.

Section Rows.
Context {A : Type} (sess : A -> string) (tsOf : A -> list (option Z)) (code : string).

Lemma rows_keep rows acc m :
  ((exists c, fst acc = Some c /\ c <= m) ->
   exists c, fst (foldl (fun acc r => if String.eqb (sess r) code
                                      then mergeAll acc (tsOf r) else acc) acc rows) = Some c
             /\ c <= m) /\
  ((exists c, snd acc = Some c /\ m <= c) ->
   exists c, snd (foldl (fun acc r => if String.eqb (sess r) code
                                      then mergeAll acc (tsOf r) else acc) acc rows) = Some c
             /\ m <= c).
Proof.
  revert acc. induction rows as [|r rows IH]; intros acc; [tauto|]. simpl.
  destruct (String.eqb (sess r) code); [|apply IH].
  pose proof (mergeAll_keep acc (tsOf r) m). pose proof (IH (mergeAll acc (tsOf r))). tauto.
Qed.

Lemma rows_new rows acc r m :
  r ∈ rows -> sess r = code -> Some m ∈ tsOf r ->
  (exists c, fst (foldl (fun acc r => if String.eqb (sess r) code
                                      then mergeAll acc (tsOf r) else acc) acc rows) = Some c
             /\ c <= m) /\
  (exists c, snd (foldl (fun acc r => if String.eqb (sess r) code
                                      then mergeAll acc (tsOf r) else acc) acc rows) = Some c
             /\ m <= c).
Proof.
  revert acc. induction rows as [|r' rows IH]; intros acc Hr Hs Hm;
    [by apply not_elem_of_nil in Hr|].
  simpl. apply elem_of_cons in Hr as [<-|Hr]; [|by apply IH].
  rewrite Hs, String.eqb_refl.
  pose proof (mergeAll_new acc (tsOf r) m Hm).
  pose proof (rows_keep rows (mergeAll acc (tsOf r)) m). tauto.
Qed.

Lemma rows_none rows acc :
  (forall r, r ∈ rows -> sess r = code -> Forall (fun o => o = None) (tsOf r)) ->
  foldl (fun acc r => if String.eqb (sess r) code
                      then mergeAll acc (tsOf r) else acc) acc rows = acc.
Proof.
  revert acc. induction rows as [|r rows IH]; intros acc H; [done|]. simpl.
  destruct (String.eqb_spec (sess r) code) as [E|E].
  - rewrite mergeAll_none by (apply H; [apply elem_of_cons; by left|done]).
    apply IH. intros r' Hr'. apply H. apply elem_of_cons. by right.
  - apply IH. intros r' Hr'. apply H. apply elem_of_cons. by right.
Qed.

End Rows.

(** The window [computeSessionWindowMs_] returns never ends before it
    starts.  Its start is at most the session's Created Date, its end at
    least the Last Activity, and every timestamp, start and end time of
    the session's Task Progress rows and every timestamp of its Session
    Events lies inside it.  Without any of these timestamps the window is
    empty and sits at [now]. *)
Theorem computeSessionWindowMs_bounds ss code now :
  let '(startMs, endMs) := computeSessionWindowMs_ ss code now in
  startMs <= endMs /\
  (forall row, sessionsRow ss code = Some row ->
     (forall c, createdDate row = Some c -> startMs <= c) /\
     (forall l, lastActivityTs row = Some l -> l <= endMs)) /\
  (forall r m, r ∈ progressRows ss -> pSession r = code ->
     Some m ∈ [pTimestamp r; pStart r; pEnd r] -> startMs <= m <= endMs) /\
  (forall e m, e ∈ eventRows ss -> eSession e = code -> eTimestamp e = Some m ->
     startMs <= m <= endMs) /\
  ((forall row, sessionsRow ss code = Some row ->
      createdDate row = None /\ lastActivityTs row = None) ->
   (forall r, r ∈ progressRows ss -> pSession r = code ->
      pTimestamp r = None /\ pStart r = None /\ pEnd r = None) ->
   (forall e, e ∈ eventRows ss -> eSession e = code -> eTimestamp e = None) ->
   startMs = now /\ endMs = now).
Proof.
  unfold computeSessionWindowMs_.
  set (acc0 := match sessionsRow ss code with
               | Some row => (createdDate row, lastActivityTs row)
               | None => (None, None) end).
  set (FP := fun (acc : option Z * option Z) (r : ProgressRow) =>
               if String.eqb (pSession r) code
               then mergeAll acc [pTimestamp r; pStart r; pEnd r] else acc).
  set (FE := fun (acc : option Z * option Z) (e : EventRow) =>
               if String.eqb (eSession e) code then mergeAll acc [eTimestamp e] else acc).
  set (acc1 := foldl FP acc0 (progressRows ss)).
  set (acc2 := foldl FE acc1 (eventRows ss)).
  cbv zeta.
  (* every bound known for the final accumulator carries to the window *)
  assert (Fin : forall m,
    ((exists c, fst acc2 = Some c /\ c <= m) ->
       (match fst acc2 with Some m => m | None => now end) <= m) /\
    ((exists c, snd acc2 = Some c /\ m <= c) ->
       m <= (let mn := match fst acc2 with Some m => m | None => now end in
             let mx := match snd acc2 with Some m => m | None => mn end in
             if mx <? mn then mn else mx))).
  { intros m. split; intros (c & Hc & Hle); rewrite Hc; [done|].
    cbv zeta. match goal with |- context [if ?a <? ?b then _ else _] =>
      destruct (Z.ltb_spec a b) end; lia. }
  assert (KP : forall acc m,
    ((exists c, fst acc = Some c /\ c <= m) -> exists c, fst (foldl FP acc (progressRows ss)) = Some c /\ c <= m) /\
    ((exists c, snd acc = Some c /\ m <= c) -> exists c, snd (foldl FP acc (progressRows ss)) = Some c /\ m <= c))
    by (intros; apply (rows_keep pSession (fun r => [pTimestamp r; pStart r; pEnd r]) code)).
  assert (KE : forall acc m,
    ((exists c, fst acc = Some c /\ c <= m) -> exists c, fst (foldl FE acc (eventRows ss)) = Some c /\ c <= m) /\
    ((exists c, snd acc = Some c /\ m <= c) -> exists c, snd (foldl FE acc (eventRows ss)) = Some c /\ m <= c))
    by (intros; apply (rows_keep eSession (fun e => [eTimestamp e]) code)).
  split_and!.
  - match goal with |- context [if ?a <? ?b then _ else _] =>
      destruct (Z.ltb_spec a b) end; lia.
  - intros row Hrow. split.
    + intros c Hc. apply (Fin c), KE, KP. unfold acc0. rewrite Hrow, Hc. simpl. eauto with lia.
    + intros l Hl. apply (Fin l), KE, KP. unfold acc0. rewrite Hrow, Hl. simpl. eauto with lia.
  - intros r m Hr Hs Hm.
    pose proof (rows_new pSession (fun r => [pTimestamp r; pStart r; pEnd r]) code
                  (progressRows ss) acc0 r m Hr Hs Hm) as [H1 H2].
    split; [apply Fin, KE, H1|apply Fin, KE, H2].
  - intros e m He Hs Hm.
    assert (Hin : Some m ∈ [eTimestamp e]) by (rewrite Hm; apply list_elem_of_singleton; done).
    pose proof (rows_new eSession (fun e => [eTimestamp e]) code
                  (eventRows ss) acc1 e m He Hs Hin) as [H1 H2].
    split; [apply Fin, H1|apply Fin, H2].
  - intros Hrow Hp He.
    assert (E0 : acc0 = (None, None)).
    { unfold acc0. destruct (sessionsRow ss code) as [row|] eqn:R; [|done].
      destruct (Hrow row eq_refl) as [-> ->]. done. }
    assert (E1 : acc1 = (None, None)).
    { unfold acc1. rewrite E0.
      apply (rows_none pSession (fun r => [pTimestamp r; pStart r; pEnd r]) code).
      intros r Hr Hs. destruct (Hp r Hr Hs) as (-> & -> & ->). repeat constructor. }
    assert (E2 : acc2 = (None, None)).
    { unfold acc2. rewrite E1. apply (rows_none eSession (fun e => [eTimestamp e]) code).
      intros e Hr Hs. rewrite (He e Hr Hs). repeat constructor. }
    rewrite E2. simpl. rewrite Z.ltb_irrefl. done.
Qed.

End WindowFacts.
